(** * Sparse corpus codecs of gensim: the UCI and Matrix Market dialects

    A shallow embedding of [gensim/corpora/ucicorpus.py] and
    [gensim/corpora/mmcorpus.py].  Python integers are [Z], byte strings are
    lists of 8-bit characters, a file opened for writing is a byte buffer with
    a cursor, a [dict] is a [gmap], and the exceptions a method can raise are
    an explicit outcome threaded together with the writer's state. *)

From Stdlib Require Import ZArith QArith Ascii String List Lia.
From stdpp Require Import base list gmap strings pretty sorting.

Local Open Scope Z_scope.

(** ** Python values *)

(** [bytes]: an immutable sequence of 8-bit characters. *)
Notation bytes := (list ascii).

(** [utils.to_utf8] on a text that holds ASCII characters only. *)
Definition to_utf8 (s : string) : bytes := list_ascii_of_string s.

(** [str(n)] for an [int]: the decimal digits, a leading [-] when negative. *)
Definition str (n : Z) : string := pretty n.

(** [int(y)] for a finite number: truncation toward zero.  Finite floats and
    integers are both rationals, so weights are modelled as [Q]. *)
Definition int_of_number (y : Q) : Z := Z.quot (Qnum y) (Z.pos (Qden y)).

(** The exceptions raised by the modelled code. *)
Inductive exn : Type :=
  | ValueError (msg : string)
  | IndexError
  | ZeroDivisionError
  | OverflowError.

Inductive outcome (A : Type) : Type :=
  | Return (a : A)
  | Raise (e : exn).
Arguments Return {A} a.
Arguments Raise {A} e.

(** The three counts of a corpus header, as a reader holds them in its
    attributes and as a writer patches them into the file. *)
Record CorpusHeader : Type := mkHeader {
  num_docs : Z;
  num_terms : Z;
  num_nnz : Z
}.

(** ** Binary files opened for writing *)

Module File.

Record t : Type := mk { data : bytes; pos : nat; closed : bool }.

(** A file freshly opened with mode ['wb']: truncated, cursor at 0. *)
Definition open_wb : t := {| data := []; pos := 0; closed := false |}.

Definition tell (f : t) : Z := Z.of_nat (pos f).

Definition seek (offset : nat) (f : t) : t :=
  {| data := data f; pos := offset; closed := closed f |}.

(** [write] overwrites at the cursor, extending the file when the cursor
    runs past its end (a gap left by a seek reads as zero bytes). *)
Definition write (b : bytes) (f : t) : t :=
  {| data := take (pos f) (data f)
             ++ replicate (pos f - length (data f)) zero
             ++ b
             ++ drop (pos f + length b) (data f);
     pos := (pos f + length b)%nat;
     closed := closed f |}.

Definition close (f : t) : t :=
  {| data := data f; pos := pos f; closed := true |}.

End File.

(** ** Documents *)

(** A bag-of-words document as the caller hands it over: pairs of a feature
    id and a numeric weight. *)
Notation bow := (list (Z * Q)).

(** The vector after integer coercion. *)
Notation vector := (list (Z * Z)).

(** ** MmWriter: the base class of the UCI writer *)

Module MmWriter.

(** The attributes a writer instance carries. *)
Record t : Type := mk {
  fout : File.t;
  last_docno : Z;
  headers_written : bool
}.

(** Computations over a writer that may raise. *)
Definition M (A : Type) : Type := t -> outcome A * t.

Definition ret {A} (a : A) : M A := fun w => (Return a, w).
Definition raise {A} (e : exn) : M A := fun w => (Raise e, w).
Definition bind {A B} (m : M A) (k : A -> M B) : M B :=
  fun w => match m w with
           | (Return a, w') => k a w'
           | (Raise e, w') => (Raise e, w')
           end.

Definition on_fout (g : File.t -> File.t) : M unit :=
  fun w => (Return tt,
            {| fout := g (fout w);
               last_docno := last_docno w;
               headers_written := headers_written w |}).

Definition tell : M Z := fun w => (Return (File.tell (fout w)), w).

(** Modelled from the spec: [MmWriter.__init__(fname)] lives in
    [gensim.matutils], which is not part of the sources at hand.  The writer
    owns a sink of its own (section 5), here a file opened afresh; no header
    is written yet and no document has been seen. *)
Definition init : t :=
  {| fout := File.open_wb; last_docno := -1; headers_written := false |}.

(** Modelled from the spec: [MmWriter.close], absent like [__init__];
    step 7 of section 4.3 closes the sink. *)
Definition close : M unit := on_fout File.close.

(** Modelled from the spec: the absent [MmWriter.write_vector] writes in
    increasing feature-id order (section 4.3, step 3); a stable insertion
    of a pair by ascending feature id. *)
Fixpoint insert_by_id (p : Z * Z) (v : vector) : vector :=
  match v with
  | [] => [p]
  | q :: v' => if fst p <? fst q then p :: q :: v'
               else q :: insert_by_id p v'
  end.

(** Modelled from the spec: the increasing feature-id order in which the
    absent [MmWriter.write_vector] writes the pairs of a document. *)
Definition sorted_by_id (v : vector) : vector :=
  foldr insert_by_id [] v.

(** Modelled from the spec: the entry line that the absent
    [MmWriter.write_vector] formats.  Section 6 gives the layout of the UCI
    dialect: [doc_id term_id count], separated by blanks, one per line. *)
Definition entry_line (docno : Z) (p : Z * Z) : bytes :=
  to_utf8 (str docno) ++ to_utf8 " " ++ to_utf8 (str (fst p))
    ++ to_utf8 " " ++ to_utf8 (str (snd p)) ++ to_utf8 "
".

(** Modelled from the spec: [MmWriter.write_vector] lives in
    [gensim.matutils], which is not part of the sources at hand.  Per
    section 4.3 it writes one entry line per non-zero-weight pair, in
    increasing feature-id order, and reports the largest feature id seen
    ([-1] for a document without lines, so that [1 + max_id] is 0) together
    with the number of lines written. *)
Definition write_vector (docno : Z) (v : vector) : M (Z * Z) :=
  let kept := sorted_by_id (filter (fun p => snd p ≠ 0) v) in
  bind (on_fout (File.write (concat (map (entry_line docno) kept))))
       (fun _ => ret (foldr Z.max (-1) (map fst kept),
                      Z.of_nat (length kept))).

(** Modelled from the spec: the pairs of a document for which the absent
    [MmWriter.write_corpus] writes an entry line (section 4.3, step 3): the
    weights of the coordinate dialect are written as they are, an entry
    line exists for the non-zero ones. *)
Definition written (b : bow) : bow :=
  filter (fun p => Qnum (snd p) ≠ 0) b.

(** Modelled from the spec: the running [num_terms] of the absent
    [MmWriter.write_corpus] (section 4.3, step 4). *)
Definition observed_terms (corpus : list bow) : Z :=
  foldl (fun n b => Z.max n (1 + foldr Z.max (-1) (map fst (written b))))
        0 corpus.

(** Modelled from the spec: [MmWriter.write_corpus] lives in
    [gensim.matutils], which is not part of the sources at hand.  Per
    section 4.3 (steps 4 to 6) the header patched into the file holds the
    number of documents processed, for [num_terms] the declared value when
    one was provided, else one more than the largest feature id seen, and
    the number of lines written.  The byte layout of the coordinate dialect
    is not modelled. *)
Definition write_corpus (corpus : list bow) (num_terms : option Z)
    : CorpusHeader :=
  {| num_docs := Z.of_nat (length corpus);
     num_terms := default (observed_terms corpus) num_terms;
     num_nnz := Z.of_nat (length (concat (map written corpus))) |}.

End MmWriter.

Notation "'let*' x ':=' m 'in' k" := (MmWriter.bind m (fun x => k))
  (at level 10, x name, m at level 100, k at level 200).
Notation "m '>>' k" := (MmWriter.bind m (fun _ => k))
  (at level 100, k at level 200, right associativity).

(** ** UciWriter *)

Module UciWriter.
Import MmWriter.

(** [UciWriter.MAX_HEADER_LENGTH]: reserve 20 bytes per header value *)
Definition MAX_HEADER_LENGTH : nat := 20.

Definition FAKE_HEADER : bytes :=
  replicate MAX_HEADER_LENGTH " "%char ++ to_utf8 "
".

(** [UciWriter.write_headers] (ucicorpus.py, lines 202-208): three blank
    header lines, to be updated once the statistics are known. *)
Definition write_headers : M unit :=
  fun w =>
    let f := Nat.iter 3 (File.write FAKE_HEADER) (fout w) in
    (Return tt, {| fout := f; last_docno := -1; headers_written := true |}).

(** The [for value in values] loop of [update_headers] (ucicorpus.py,
    lines 215-220), with [offset] the value of the local variable. *)
Fixpoint update_headers_loop (values : list bytes) (offset : nat) : M unit :=
  match values with
  | [] => ret tt
  | value :: rest =>
      if (length FAKE_HEADER <? length value)%nat
      then raise (ValueError "Invalid header: value too large!")
      else
        on_fout (File.seek offset) >>
        on_fout (File.write value) >>
        update_headers_loop rest (offset + length FAKE_HEADER)%nat
  end.

(** [UciWriter.update_headers] (ucicorpus.py, lines 210-220): update the
    headers with the actual values. *)
Definition update_headers (num_docs num_terms num_nnz : Z) : M unit :=
  let values := map (fun n => to_utf8 (str n)) [num_docs; num_terms; num_nnz] in
  update_headers_loop values 0%nat.

(** The local variables of [write_corpus] that live across iterations. *)
Record locals : Type := mkLocals {
  num_terms : Z;
  num_nnz : Z;
  docno : Z;
  poslast : Z;
  offsets : list Z
}.

(** [offsets[-1] = x]: an [IndexError] on the empty list. *)
Definition set_last (x : Z) (l : list Z) : M (list Z) :=
  match l with
  | [] => raise IndexError
  | _ => ret (<[pred (length l) := x]> l)
  end.

(** [docno % progress_cnt == 0] only decides whether a log line is
    emitted, but the remainder itself is evaluated. *)
Definition progress (docno progress_cnt : Z) : M unit :=
  if progress_cnt =? 0 then raise ZeroDivisionError else ret tt.

(** The [if index:] block (ucicorpus.py, lines 252-257). *)
Definition record_offset (index : bool) (s : locals) : M locals :=
  if index then
    let* posnow := tell in
    let* offs := (if posnow =? poslast s then set_last (-1) (offsets s)
                  else ret (offsets s)) in
    ret {| num_terms := num_terms s; num_nnz := num_nnz s;
           docno := docno s; poslast := posnow;
           offsets := offs ++ [posnow] |}
  else ret s.

(** [[(x, int(y)) for (x, y) in bow if int(y) != 0]] (ucicorpus.py, line
    259): integer count, not floating weights. *)
Definition coerce (b : bow) : vector :=
  omap (fun p => let c := int_of_number (snd p) in
                 if c =? 0 then None else Some (fst p, c)) b.

(** [for docno, bow in enumerate(corpus)] (ucicorpus.py, lines 249-262),
    with [i] the next index. *)
Fixpoint write_corpus_loop (progress_cnt : Z) (index : bool)
    (corpus : list bow) (i : Z) (s : locals) : M locals :=
  match corpus with
  | [] => ret s
  | b :: rest =>
      progress i progress_cnt >>
      let* s1 := record_offset index s in
      let* r := write_vector i (coerce b) in
      write_corpus_loop progress_cnt index rest (i + 1)
        {| num_terms := Z.max (num_terms s1) (1 + fst r);
           num_nnz := num_nnz s1 + snd r;
           docno := i; poslast := poslast s1; offsets := offsets s1 |}
  end.

(** The locals before the first iteration (ucicorpus.py, lines 246-248). *)
Definition initial : locals :=
  {| num_terms := 0; num_nnz := 0; docno := -1; poslast := -1;
     offsets := [] |}.

(** The statement part of [write_corpus] that runs on a writer; the result
    is the offsets list when [index] is set and [None] otherwise.  The log
    messages, the density report among them, leave no trace in the file or
    in the result and are left out; [write_corpus_logged] below puts the
    density report back, the one message whose arguments can fail to
    evaluate. *)
Definition write_corpus_body (corpus : list bow) (progress_cnt : Z)
    (index : bool) : M (option (list Z)) :=
  write_headers >>
  let* s := write_corpus_loop progress_cnt index corpus 0 initial in
  let num_docs := docno s + 1 in
  update_headers num_docs (num_terms s) (num_nnz s) >>
  close >>
  ret (if index then Some (offsets s) else None).

(** [UciWriter.write_corpus(fname, corpus, progress_cnt, index)]
    (ucicorpus.py, lines 222-277): the outcome of the call and the writer it
    leaves behind, whose [fout] holds the bytes of [fname]. *)
Definition write_corpus (corpus : list bow) (progress_cnt : Z)
    (index : bool) : outcome (option (list Z)) * MmWriter.t :=
  write_corpus_body corpus progress_cnt index MmWriter.init.

(** [float(n)], the conversion that a float operation applies to an [int]
    operand, raises [OverflowError] (int too large to convert to float)
    when [n] rounds to a double beyond the largest finite one,
    [2^1024 - 2^971]: from [2^1024 - 2^970] on in absolute value. *)
Definition float_overflows (n : Z) : bool := 2 ^ 1024 - 2 ^ 970 <=? Z.abs n.

(** The density report (ucicorpus.py, lines 265-270).  The message is only
    logged, but the arguments of the call are evaluated first:
    [100.0 * num_nnz / (num_docs * num_terms)] converts [num_nnz], then the
    product, to a float.  The product is not 0 here, so the division itself
    cannot fail. *)
Definition density_report (num_docs num_terms num_nnz : Z) : M unit :=
  if num_docs * num_terms =? 0 then ret tt
  else if float_overflows num_nnz || float_overflows (num_docs * num_terms)
       then raise OverflowError
       else ret tt.

(** [write_corpus] with the density report in its place, between the loop
    and the patch of the header (ucicorpus.py, lines 243-277). *)
Definition write_corpus_logged_body (corpus : list bow) (progress_cnt : Z)
    (index : bool) : M (option (list Z)) :=
  write_headers >>
  let* s := write_corpus_loop progress_cnt index corpus 0 initial in
  let num_docs := docno s + 1 in
  density_report num_docs (num_terms s) (num_nnz s) >>
  update_headers num_docs (num_terms s) (num_nnz s) >>
  close >>
  ret (if index then Some (offsets s) else None).

Definition write_corpus_logged (corpus : list bow) (progress_cnt : Z)
    (index : bool) : outcome (option (list Z)) * MmWriter.t :=
  write_corpus_logged_body corpus progress_cnt index MmWriter.init.

End UciWriter.

(** ** Readers *)

Module MmReader.

(** A decoded entry line: the document id, then the feature id and the
    weight. *)
Notation entry := (Z * (Z * Q))%type.

(** Modelled from the spec: the gap-fill of the absent [MmReader.__iter__]
    (section 4.2), empty documents for the ids [a], [a + 1], ..., [b - 1]. *)
Definition empties (a b : Z) : list (Z * bow) :=
  map (fun i => (i, [])) (seqZ a (b - a)).

(** Modelled from the spec: the grouping loop of the absent
    [MmReader.__iter__] (section 4.2) once a current document id is known;
    [n] is the [num_docs] of the header. *)
Fixpoint group (n : Z) (current_doc_id : Z) (acc : bow)
    (es : list entry) : list (Z * bow) :=
  match es with
  | [] => (current_doc_id, acc) :: empties (current_doc_id + 1) n
  | (doc_id, p) :: es' =>
      if doc_id =? current_doc_id
      then group n current_doc_id (acc ++ [p]) es'
      else (current_doc_id, acc)
             :: empties (current_doc_id + 1) doc_id
             ++ group n doc_id [p] es'
  end.

(** Modelled from the spec: [MmReader.__iter__] is a compiled method of
    which the sources at hand keep the signature and docstring only
    (mmcorpus.py, lines 85-99).  Per section 4.2, after the header the
    entry lines are scanned in order; entries of the current id are
    accumulated; on a change of id the accumulated document is emitted,
    then an empty document for every id strictly between the previous id
    and the new one; on exhaustion the last accumulated document is
    emitted, then empty documents for the remaining ids up to
    [num_docs - 1].  The docstring and the post-condition of section 4.2
    fix the number of documents to [num_docs], empty documents being
    inserted for the ids 0, ..., [num_docs - 1] that no entry line
    carries: the ids below the first observed one get their empty
    documents before the first accumulated document.  A stream without
    entries has no accumulated document (a corpus with [num_docs = 0]
    yields nothing).  The argument [es] is the sequence of decoded entry
    lines, document ids counted from 0. *)
Definition iter (r : CorpusHeader) (es : list entry) : list (Z * bow) :=
  match es with
  | [] => empties 0 (num_docs r)
  | (doc_id, p) :: es' =>
      empties 0 doc_id ++ group (num_docs r) doc_id [p] es'
  end.

End MmReader.

Module UciReader.
Import MmReader.

Definition newline : ascii := "010"%char.

(** Iterating a file opened with mode ['rb'] yields its lines, each with
    its terminating newline; the last one may lack it. *)
Fixpoint readlines (b : bytes) : list bytes :=
  match b with
  | [] => []
  | c :: b' =>
      if Ascii.eqb c newline then [c] :: readlines b'
      else match readlines b' with
           | [] => [[c]]
           | l :: ls => (c :: l) :: ls
           end
  end.

(** ASCII whitespace, as [bytes.strip] and [int] understand it. *)
Definition is_space (c : ascii) : bool :=
  let n := nat_of_ascii c in
  ((9 <=? n) && (n <=? 13))%nat || (n =? 32)%nat.

Fixpoint lstrip (b : bytes) : bytes :=
  match b with
  | c :: b' => if is_space c then lstrip b' else b
  | [] => []
  end.

Definition strip (b : bytes) : bytes := rev (lstrip (rev (lstrip b))).

Definition digit (c : ascii) : option Z :=
  let n := nat_of_ascii c in
  if ((48 <=? n) && (n <=? 57))%nat then Some (Z.of_nat n - 48) else None.

(** Decimal digits, single underscores allowed between two digits. *)
Fixpoint digits (acc : Z) (after_digit : bool) (b : bytes) : option Z :=
  match b with
  | [] => if after_digit then Some acc else None
  | c :: b' =>
      match digit c with
      | Some d => digits (10 * acc + d) true b'
      | None =>
          if Ascii.eqb c "_"%char && after_digit then digits acc false b'
          else None
      end
  end.

(** [int(b)] in base 10 on a stripped byte string: an optional sign, then
    the digits; [None] stands for the [ValueError] of an invalid literal. *)
Definition int (b : bytes) : option Z :=
  match b with
  | c :: b' =>
      if Ascii.eqb c "-"%char then Z.opp <$> digits 0 false b'
      else if Ascii.eqb c "+"%char then digits 0 false b'
      else digits 0 false b
  | [] => None
  end.

Definition invalid_literal : exn :=
  ValueError "invalid literal for int() with base 10".

(** [UciReader.__init__(input)] (ucicorpus.py, lines 147-173), with
    [input] given by the bytes of the file.  Each [next(fin)] that finds no line raises [StopIteration],
    which the [except] clause swallows: the counts assigned so far stay,
    the others keep the 0 they were initialised with. *)
Definition init (input : bytes) : outcome CorpusHeader :=
  match readlines input with
  | [] => Return {| num_docs := 0; num_terms := 0; num_nnz := 0 |}
  | l0 :: ls =>
      match int (strip l0) with
      | None => Raise invalid_literal
      | Some nd =>
          match ls with
          | [] => Return {| num_docs := nd; num_terms := 0; num_nnz := 0 |}
          | l1 :: ls =>
              match int (strip l1) with
              | None => Raise invalid_literal
              | Some nt =>
                  match ls with
                  | [] => Return {| num_docs := nd; num_terms := nt;
                                    num_nnz := 0 |}
                  | l2 :: _ =>
                      match int (strip l2) with
                      | None => Raise invalid_literal
                      | Some nz => Return {| num_docs := nd;
                                             num_terms := nt;
                                             num_nnz := nz |}
                      end
                  end
              end
          end
      end
  end.

(** The loop of [skip_headers] over the lines that [input_file] still has
    to yield; the result is what is left of them when the loop is over. *)
Fixpoint skip_headers_loop (lineno : Z) (input_file : list bytes)
    : list bytes :=
  match input_file with
  | [] => []
  | _ :: rest =>
      if lineno =? 2 then rest else skip_headers_loop (lineno + 1) rest
  end.

(** [UciReader.skip_headers(input_file)] (ucicorpus.py, lines 175-186):
    [for lineno, _ in enumerate(input_file): if lineno == 2: break]. *)
Definition skip_headers (input_file : list bytes) : list bytes :=
  skip_headers_loop 0 input_file.

End UciReader.

(** ** Dictionary *)

Module Dictionary.

(** The attributes of a [Dictionary] that [UciCorpus.create_dictionary]
    assigns.  The class lives in [gensim.corpora.dictionary], outside the
    sources at hand; a fresh instance is a parameter where one is made. *)
Record t : Type := mk {
  dfs : gmap Z Z;
  id2token : gmap Z bytes;
  token2id : gmap bytes Z;
  num_docs : Z;
  num_nnz : Z;
  num_pos : Q
}.

End Dictionary.

(** ** UciCorpus *)

Module UciCorpus.

(** [UciCorpus.__iter__] (ucicorpus.py, lines 316-326):
    [for docId, doc in super().__iter__(): yield doc] *)
Definition iter (r : CorpusHeader) (es : list MmReader.entry) : list bow :=
  map snd (MmReader.iter r es).

(** [max(id2word)]: the largest key of a non-empty mapping. *)
Definition max_key (id2word : gmap Z string) : Z :=
  match map fst (map_to_list id2word) with
  | [] => 0
  | k :: ks => foldr Z.max k ks
  end.

Section save_corpus.

(** [utils.dict_from_corpus] belongs to a module outside the sources at
    hand; save_corpus only takes the length of its result and looks ids
    up in it. *)
Variable dict_from_corpus : list bow -> gmap Z string.

(** The mapping in use and the [num_terms] computed from it. *)
Definition vocabulary (corpus : list bow)
    (id2word : option (gmap Z string)) : gmap Z string * Z :=
  match id2word with
  | None => let d := dict_from_corpus corpus in (d, Z.of_nat (size d))
  | Some d => if bool_decide (d = ∅) then (d, 0) else (d, 1 + max_key d)
  end.

Definition vocab_line (id2word : gmap Z string) (featureid : Z) : bytes :=
  to_utf8 (default "---" (id2word !! featureid)) ++ to_utf8 "
".

(** The bytes written to the [.vocab] file. *)
Definition write_vocab (id2word : gmap Z string) (num_terms : Z) : bytes :=
  concat (map (vocab_line id2word) (seqZ 0 num_terms)).

(** [UciCorpus.save_corpus(fname, corpus, id2word, progress_cnt)]
    (ucicorpus.py, lines 369-414): the
    bytes of the vocabulary file, then what the writer returns and leaves
    behind. *)
Definition save_corpus (corpus : list bow)
    (id2word : option (gmap Z string)) (progress_cnt : Z)
    : bytes * (outcome (option (list Z)) * MmWriter.t) :=
  let '(d, num_terms) := vocabulary corpus id2word in
  (write_vocab d num_terms,
   UciWriter.write_corpus corpus progress_cnt true).

End save_corpus.

(** [enumerate(words)] *)
Definition enumerate {A} (words : list A) : list (Z * A) :=
  imap (fun i word => (Z.of_nat i, word)) words.

(** [dict(pairs)]: the pairs are inserted in turn, a later one replaces an
    earlier one with the same key. *)
Definition dict {A} (pairs : list (Z * A)) : gmap Z A :=
  foldl (fun m p => <[fst p := snd p]> m) ∅ pairs.

(** The attributes of a [UciCorpus] set by the code at hand: the counts of
    the reader, the vocabulary, the orientation flag. *)
Record t : Type := mk {
  header : CorpusHeader;
  id2word : gmap Z bytes;
  transposed : bool
}.

(** [UciCorpus.__init__(fname, fname_vocab)] (ucicorpus.py, lines 282-314),
    with the two files given by their bytes.  The index that
    [IndexedCorpus.__init__], outside the sources at hand, may load is left
    out.  The vocabulary is read in binary mode: the words are bytes. *)
Definition init (input vocab : bytes) : outcome t :=
  match UciReader.init input with
  | Raise e => Raise e
  | Return h =>
      let words := map UciReader.strip (UciReader.readlines vocab) in
      Return {| header := h; id2word := dict (enumerate words);
                transposed := true |}
  end.

Section create_dictionary.

(** [Dictionary()] and [utils.revdict] belong to modules outside the
    sources at hand. *)
Variable fresh : Dictionary.t.
Variable revdict : gmap Z bytes -> gmap bytes Z.

(** [dictionary.dfs[word] += 1; dictionary.num_pos += count], on a
    [defaultdict(int)]. *)
Definition count_pair (d : Dictionary.t) (p : Z * Q) : Dictionary.t :=
  {| Dictionary.dfs :=
       <[fst p := default 0 (Dictionary.dfs d !! fst p) + 1]> (Dictionary.dfs d);
     Dictionary.id2token := Dictionary.id2token d;
     Dictionary.token2id := Dictionary.token2id d;
     Dictionary.num_docs := Dictionary.num_docs d;
     Dictionary.num_nnz := Dictionary.num_nnz d;
     Dictionary.num_pos := (Dictionary.num_pos d + snd p)%Q |}.

(** [UciCorpus.create_dictionary()] (ucicorpus.py, lines 328-367); [es]
    stands for the entry lines that iterating over [self] decodes. *)
Definition create_dictionary (self : t) (es : list MmReader.entry)
    : Dictionary.t :=
  let dictionary :=
    {| Dictionary.dfs := ∅;
       Dictionary.id2token := id2word self;
       Dictionary.token2id := revdict (id2word self);
       Dictionary.num_docs := num_docs (header self);
       Dictionary.num_nnz := num_nnz (header self);
       Dictionary.num_pos := Dictionary.num_pos fresh |} in
  foldl (fun d doc => foldl count_pair d doc) dictionary
        (iter (header self) es).

End create_dictionary.

End UciCorpus.

(** ** The coordinate dialect *)

Module MmCorpus.

(** [MmCorpus.save_corpus(fname, corpus, id2word)] (mmcorpus.py, lines
    195-235) *)
Definition save_corpus (corpus : list bow)
    (id2word : option (gmap Z string)) : CorpusHeader :=
  let num_terms := (fun d : gmap Z string => Z.of_nat (size d)) <$> id2word in
  MmWriter.write_corpus corpus num_terms.

(** [MmCorpus.__iter__] (mmcorpus.py, lines 177-193):
    [for doc_id, doc in super().__iter__(): yield doc] *)
Definition iter (r : CorpusHeader) (es : list MmReader.entry) : list bow :=
  map snd (MmReader.iter r es).

End MmCorpus.

(** ** Notions used to state the properties *)

Definition is_digit (c : ascii) : Prop := is_Some (UciReader.digit c).

(** The characters [str] can produce: digits and the minus sign. *)
Definition numeric_char (c : ascii) : Prop := is_digit c ∨ c = "-"%char.

(** One step of reading a decimal numeral from the left. *)
Definition step (a : Z) (c : ascii) : Z :=
  10 * a + default 0 (UciReader.digit c).

(** The cursor of a file sits at its end. *)
Definition at_end (f : File.t) : Prop := File.pos f = length (File.data f).

(** A header line once its value is patched in: the value, the blanks left
    of the 20 reserved ones, the newline. *)
Definition pad (v : bytes) : bytes :=
  v ++ replicate (UciWriter.MAX_HEADER_LENGTH - length v) " "%char
    ++ [UciReader.newline].

(** The entry lines of document [i], as they follow each other in the
    file. *)
Definition doc_lines (i : Z) (b : bow) : list bytes :=
  map (MmWriter.entry_line i) (MmWriter.sorted_by_id (UciWriter.coerce b)).

Fixpoint body_lines (i : Z) (corpus : list bow) : list bytes :=
  match corpus with
  | [] => []
  | b :: rest => doc_lines i b ++ body_lines (i + 1) rest
  end.

(** The pairs that survive the integer coercion, over the whole corpus. *)
Definition written_pairs (corpus : list bow) : vector :=
  concat (map UciWriter.coerce corpus).

(** The largest of a list of feature ids, [-1] when there is none. *)
Definition max_id (ids : list Z) : Z := foldr Z.max (-1) ids.

(** The position of the cursor when each document is reached, for a corpus
    whose first document has index [i] and starts at [pos]. *)
Fixpoint doc_starts (i : Z) (pos : Z) (corpus : list bow) : list Z :=
  match corpus with
  | [] => []
  | b :: rest =>
      pos :: doc_starts (i + 1)
               (pos + Z.of_nat (length (concat (doc_lines i b)))) rest
  end.

(** What recording one more position does to the offsets list. *)
Definition push (st : list Z * Z) (posnow : Z) : list Z * Z :=
  ((if posnow =? st.2 then <[pred (length st.1) := -1]> st.1 else st.1)
     ++ [posnow], posnow).

(** The offsets list in closed form: a slot holds [-1] when the next
    document starts at the same position, else the position itself. *)
Fixpoint mark (ps : list Z) : list Z :=
  match ps with
  | [] => []
  | p :: ps' =>
      match ps' with
      | q :: _ => if q =? p then -1 else p
      | [] => p
      end :: mark ps'
  end.

(** The three header values of a corpus. *)
Definition header_of (corpus : list bow) : CorpusHeader :=
  {| num_docs := Z.of_nat (length corpus);
     num_terms := 1 + max_id (map fst (written_pairs corpus));
     num_nnz := Z.of_nat (length (written_pairs corpus)) |}.

Definition header_values (h : CorpusHeader) : list bytes :=
  map (fun n => to_utf8 (str n)) [num_docs h; num_terms h; num_nnz h].

(** A header value the patch refuses: longer than a blank header line. *)
Definition too_long (v : bytes) : Prop :=
  (length UciWriter.FAKE_HEADER < length v)%nat.

(** A header value that fits the reserved width. *)
Definition fits (v : bytes) : Prop :=
  (length v <= UciWriter.MAX_HEADER_LENGTH)%nat.

(** Where the first document starts: right after the three header lines. *)
Definition body_start : Z := Z.of_nat (3 * length UciWriter.FAKE_HEADER).

(** The value [write_corpus] returns when it returns. *)
Definition returned (index : bool) (corpus : list bow) : option (list Z) :=
  if index then Some (mark (doc_starts 0 body_start corpus)) else None.

(** A complete line: no newline but the one that ends it. *)
Definition is_line (l : bytes) : Prop :=
  exists l', l = l' ++ [UciReader.newline] ∧ UciReader.newline ∉ l'.

(** The pairs of a document whose weight does not truncate to zero. *)
Definition nonzero_pairs (b : bow) : bow :=
  filter (fun p => int_of_number (snd p) ≠ 0) b.

(** The bytes of the header once [update_headers] has run on the three
    blank lines. *)
Definition patched (nd nt nz : Z) : bytes :=
  File.data (MmWriter.fout
    ((MmWriter.bind UciWriter.write_headers
        (fun _ => UciWriter.update_headers nd nt nz)) MmWriter.init).2).

(** The bytes [v] sit in [data] from [offset] on. *)
Definition value_at (data : bytes) (offset : nat) (v : bytes) : Prop :=
  take (length v) (drop offset data) = v.

(** Each of the three values sits at a multiple of [stride]. *)
Definition patched_at (stride : nat) (nd nt nz : Z) : Prop :=
  forall (i : nat) (n : Z),
    [nd; nt; nz] !! i = Some n ->
    value_at (patched nd nt nz) (i * stride) (to_utf8 (str n)).

(** The corpus of three documents, the second one empty. *)
Definition example_corpus : list bow :=
  [[(0, 1 # 1); (2, 3 # 1)]; []; [(1, 2 # 1)]].

(** The same corpus with a weight that truncates to zero in the first
    document. *)
Definition example_corpus_zero : list bow :=
  [[(0, 1 # 1); (4, 1 # 2); (2, 3 # 1)]; []; [(1, 2 # 1)]].

(** The document ids of a stream of decoded entry lines. *)
Definition doc_ids (es : list MmReader.entry) : list Z := map fst es.

(** The header a reader gets on a file of the UCI dialect that
    [UciCorpus.save_corpus] wrote with the mapping [id2word] carries the
    vocabulary size as its [num_terms]. *)
Definition uci_header_declares (dict_from_corpus : list bow -> gmap Z string)
    (corpus : list bow) (id2word : gmap Z string) (progress_cnt : Z) : Prop :=
  let r := UciCorpus.save_corpus dict_from_corpus corpus (Some id2word)
             progress_cnt in
  forall h,
    UciReader.init (File.data (MmWriter.fout r.2.2)) = Return h ->
    num_terms h = (UciCorpus.vocabulary dict_from_corpus corpus (Some id2word)).2.

(** A vocabulary of three words. *)
Definition example_id2word : gmap Z string :=
  {[ 0 := "human"; 1 := "interface"; 2 := "computer" ]}.

(** The pairs of the entry lines that carry document id [i], in file
    order. *)
Definition entries_of (i : Z) (es : list MmReader.entry) : bow :=
  map snd (filter (fun e => fst e = i) es).

(** A corpus of one document with one feature. *)
Definition one_word_corpus : list bow := [[(0, 1 # 1)]].

(** Entry lines of a corpus of five documents: documents 1 and 3 have
    entries. *)
Definition example_entries : list MmReader.entry :=
  [(1, (0, 1 # 1)); (1, (1, 1 # 1)); (3, (0, 2 # 1))].

(** Two sets of locals of [write_corpus] agree on the running totals. *)
Definition same_counts (s s' : UciWriter.locals) : Prop :=
  UciWriter.num_terms s = UciWriter.num_terms s'
  ∧ UciWriter.num_nnz s = UciWriter.num_nnz s'
  ∧ UciWriter.docno s = UciWriter.docno s'.

(** How often the feature id [word] occurs among the pairs of [docs]. *)
Definition occurrences (word : Z) (docs : list bow) : Z :=
  Z.of_nat (length (filter (fun p => fst p = word) (concat docs))).

(** Whether the density report of [write_corpus] fails on the counts of a
    header: the product is not 0 and one of the two conversions to a float
    overflows. *)
Definition density_overflows (h : CorpusHeader) : bool :=
  negb (num_docs h * num_terms h =? 0)
  && (UciWriter.float_overflows (num_nnz h)
      || UciWriter.float_overflows (num_docs h * num_terms h)).

(** The range of the attributes [num_docs], [num_terms] and [num_nnz] of a
    reader, declared [long long] in the compiled base class (ucicorpus.py,
    lines 126-133). *)
Definition long_long (n : Z) : Prop := - 2 ^ 63 <= n < 2 ^ 63.

(** A corpus of one document whose only feature id has 401 digits. *)
Definition huge_id_corpus : list bow := [[(10 ^ 400, 1 # 1)]].

(** * Properties *)

(** ** Decimal numerals: what [str] prints, [int] reads back *)

Section numerals.
Import UciReader.

Lemma pretty_N_char_digit (x : N) :
  (x < 10)%N -> digit (pretty_N_char x) = Some (Z.of_N x).
Proof.
  intros Hx.
  assert (x = 0 ∨ x = 1 ∨ x = 2 ∨ x = 3 ∨ x = 4 ∨ x = 5 ∨ x = 6 ∨ x = 7
          ∨ x = 8 ∨ x = 9)%N as Hc by lia.
  repeat (destruct Hc as [-> | Hc]; [reflexivity |]).
  subst x. reflexivity.
Qed.

Lemma numeric_char_plain (c : ascii) :
  numeric_char c ->
  is_space c = false ∧ c ≠ newline ∧ c ≠ "+"%char ∧ c ≠ "_"%char.
Proof.
  intros [[d Hd] | ->]; [| by vm_compute].
  destruct c as [[] [] [] [] [] [] [] []]; vm_compute in Hd; try discriminate;
    by vm_compute.
Qed.

Lemma digit_not_minus (c : ascii) : is_digit c -> c ≠ "-"%char.
Proof. intros [d Hd] ->. vm_compute in Hd. discriminate. Qed.

(** Reading a run of digits accumulates them in base 10. *)
Lemma digits_run (l : bytes) :
  Forall is_digit l -> l ≠ [] ->
  forall acc b, digits acc b l = Some (foldl step acc l).
Proof.
  induction 1 as [| c l [d Hd] Hl IH]; [done |]. intros _ acc b. simpl.
  rewrite Hd. unfold step at 2. rewrite Hd. simpl.
  destruct l as [| c' l']; [done |]. by apply IH.
Qed.

(** The digits printed for a positive number, most significant first. *)
Lemma pretty_N_go_digits (x : N) :
  forall s, exists l,
    to_utf8 (pretty_N_go x s) = l ++ to_utf8 s
    ∧ Forall is_digit l
    ∧ foldl step 0 l = Z.of_N x
    ∧ ((0 < x)%N -> l ≠ []).
Proof.
  induction (N.lt_wf_0 x) as [x _ IH]. intros s.
  destruct (decide (0 < x)%N) as [Hpos | Hz].
  - rewrite pretty_N_go_step by done.
    destruct (IH (x `div` 10)%N (N.div_lt x 10 Hpos eq_refl)
                (String (pretty_N_char (x `mod` 10)) s))
      as (l & Hl & Hd & Hv & _).
    exists (l ++ [pretty_N_char (x `mod` 10)%N]).
    assert (x `mod` 10 < 10)%N as Hm by (apply N.mod_lt; lia).
    repeat split.
    + rewrite Hl. simpl. by rewrite <- app_assoc.
    + apply Forall_app. split; [done |]. apply Forall_singleton.
      eexists. by apply pretty_N_char_digit.
    + rewrite foldl_app. simpl. rewrite Hv. unfold step.
      rewrite pretty_N_char_digit by done. simpl.
      rewrite (N.div_mod x 10) at 3 by lia. lia.
    + intros _. by destruct l.
  - assert (x = 0%N) as -> by lia. exists []. by rewrite pretty_N_go_0.
Qed.

Lemma str_pos_digits (p : positive) :
  exists l, to_utf8 (pretty (N.pos p)) = l ∧ Forall is_digit l
            ∧ foldl step 0 l = Z.pos p ∧ l ≠ [].
Proof.
  unfold pretty, pretty_N. rewrite decide_False by done.
  destruct (pretty_N_go_digits (N.pos p) "") as (l & Hl & Hd & Hv & Hne).
  exists l. simpl in Hl. rewrite app_nil_r in Hl.
  repeat split; [done | done | done | apply Hne; lia].
Qed.

Lemma str_pos (p : positive) : str (Z.pos p) = pretty (N.pos p).
Proof. reflexivity. Qed.

Lemma str_neg (p : positive) :
  to_utf8 (str (Z.neg p)) = "-"%char :: to_utf8 (pretty (N.pos p)).
Proof. reflexivity. Qed.

(** [str] prints digits, with a minus sign in front of a negative number,
    and never the empty string. *)
Lemma str_chars (n : Z) :
  Forall numeric_char (to_utf8 (str n)) ∧ to_utf8 (str n) ≠ [].
Proof.
  destruct n as [| p | p].
  - split; [| done]. apply Forall_singleton. left. by eexists.
  - destruct (str_pos_digits p) as (l & Hl & Hd & _ & Hne).
    rewrite str_pos, Hl. split; [| done].
    eapply Forall_impl; [exact Hd |]. by left.
  - destruct (str_pos_digits p) as (l & Hl & Hd & _ & Hne).
    rewrite str_neg, Hl. split; [| done].
    constructor; [by right |]. eapply Forall_impl; [exact Hd |]. by left.
Qed.

(** [int(str(n)) == n] *)
Lemma int_str (n : Z) : int (to_utf8 (str n)) = Some n.
Proof.
  destruct n as [| p | p]; [done | |].
  - destruct (str_pos_digits p) as (l & Hl & Hd & Hv & Hne).
    rewrite str_pos, Hl.
    destruct l as [| c l]; [done |]. unfold int.
    pose proof (Forall_inv Hd) as Hc.
    destruct (numeric_char_plain c (or_introl Hc)) as (_ & _ & Hplus & _).
    pose proof (digit_not_minus c Hc) as Hminus.
    apply Ascii.eqb_neq in Hplus, Hminus. rewrite Hplus, Hminus.
    rewrite digits_run by done. by rewrite Hv.
  - destruct (str_pos_digits p) as (l & Hl & Hd & Hv & Hne).
    rewrite str_neg, Hl. unfold int.
    rewrite digits_run by done. by rewrite Hv.
Qed.

(** The number of digits printed for a number below [10 ^ k] is at most
    [k]. *)
Lemma pretty_N_go_length_le (k : nat) :
  forall (x : N) (s : string),
    (x < 10 ^ N.of_nat k)%N ->
    (length (to_utf8 (pretty_N_go x s)) <= k + length (to_utf8 s))%nat.
Proof.
  induction k as [| k IH]; intros x s Hx.
  { assert (x = 0%N) as -> by (cbn in Hx; lia). by rewrite pretty_N_go_0. }
  destruct (decide (0 < x)%N) as [Hpos | Hz].
  - rewrite pretty_N_go_step by done.
    rewrite Nat2N.inj_succ, N.pow_succ_r' in Hx.
    etrans; [apply IH; by apply N.Div0.div_lt_upper_bound |].
    unfold to_utf8. cbn [list_ascii_of_string length]. lia.
  - assert (x = 0%N) as -> by lia. rewrite pretty_N_go_0. lia.
Qed.

Lemma pretty_N_go_length_acc (x : N) :
  forall s, (length (to_utf8 s) <= length (to_utf8 (pretty_N_go x s)))%nat.
Proof.
  induction (N.lt_wf_0 x) as [x _ IH]. intros s.
  destruct (decide (0 < x)%N) as [Hpos | Hz].
  - rewrite pretty_N_go_step by done.
    etrans; [| apply IH; by apply N.div_lt].
    unfold to_utf8. cbn [list_ascii_of_string length]. lia.
  - assert (x = 0%N) as -> by lia. by rewrite pretty_N_go_0.
Qed.

(** A number from [10 ^ k] on is printed with more than [k] digits. *)
Lemma pretty_N_go_length_ge (k : nat) :
  forall (x : N) (s : string),
    (10 ^ N.of_nat k <= x)%N ->
    (k + 1 + length (to_utf8 s) <= length (to_utf8 (pretty_N_go x s)))%nat.
Proof.
  induction k as [| k IH]; intros x s Hx.
  { rewrite pretty_N_go_step by (cbn in Hx; lia).
    etrans; [| apply pretty_N_go_length_acc].
    unfold to_utf8. cbn [list_ascii_of_string length]. lia. }
  rewrite Nat2N.inj_succ, N.pow_succ_r' in Hx.
  assert (0 < 10 ^ N.of_nat k)%N as Hp by (apply N.neq_0_lt_0, N.pow_nonzero; lia).
  rewrite pretty_N_go_step by lia.
  etrans; [| apply IH; by apply N.div_le_lower_bound].
  unfold to_utf8. cbn [list_ascii_of_string length]. lia.
Qed.

(** [len(str(n))] against the size of [n]: a number of absolute value
    below [10 ^ k] takes at most [k] digits and a sign, one from [10 ^ k]
    on takes more than [k] bytes. *)
Lemma str_length_le (n : Z) (k : nat) :
  Z.abs n < 10 ^ Z.of_nat k ->
  (length (to_utf8 (str n)) <= S k)%nat.
Proof.
  intros Hn.
  assert (forall p, Z.pos p < 10 ^ Z.of_nat k ->
            (length (to_utf8 (pretty (N.pos p))) <= k)%nat) as Hpos.
  { intros p Hp. unfold pretty, pretty_N. rewrite decide_False by done.
    etrans; [apply (pretty_N_go_length_le k) |]; [| cbn; lia].
    apply N2Z.inj_lt. rewrite N2Z.inj_pow, nat_N_Z. exact Hp. }
  destruct n as [| p | p].
  - cbn. lia.
  - rewrite str_pos. etrans; [apply Hpos; exact Hn | lia].
  - rewrite str_neg. cbn [length]. apply le_n_S, Hpos. exact Hn.
Qed.

Lemma str_length_ge (n : Z) (k : nat) :
  10 ^ Z.of_nat k <= Z.abs n ->
  (k + 1 <= length (to_utf8 (str n)))%nat.
Proof.
  intros Hn.
  assert (forall p, 10 ^ Z.of_nat k <= Z.pos p ->
            (k + 1 <= length (to_utf8 (pretty (N.pos p))))%nat) as Hpos.
  { intros p Hp. unfold pretty, pretty_N. rewrite decide_False by done.
    etrans; [| apply (pretty_N_go_length_ge k)]; [cbn; lia |].
    apply N2Z.inj_le. rewrite N2Z.inj_pow, nat_N_Z. exact Hp. }
  destruct n as [| p | p].
  - cbn in Hn. assert (0 < 10 ^ Z.of_nat k) by (apply Z.pow_pos_nonneg; lia).
    lia.
  - rewrite str_pos. by apply Hpos.
  - rewrite str_neg. cbn [length]. etrans; [by apply Hpos | lia].
Qed.

End numerals.

(** ** Lines and stripping *)

Section lines.
Import UciReader.

Lemma readlines_line (l rest : bytes) :
  newline ∉ l ->
  readlines (l ++ newline :: rest) = (l ++ [newline]) :: readlines rest.
Proof.
  induction l as [| c l IH]; intros Hl; [done |].
  apply not_elem_of_cons in Hl as [Hc Hl]. simpl.
  assert (Ascii.eqb c newline = false) as -> by (apply Ascii.eqb_neq; congruence).
  by rewrite (IH Hl).
Qed.

Lemma readlines_concat (ls : list bytes) :
  Forall (fun l => newline ∉ l) ls ->
  readlines (concat (map (fun l => l ++ [newline]) ls))
  = map (fun l => l ++ [newline]) ls.
Proof.
  induction 1 as [| l ls Hl _ IH]; [done |]. simpl.
  rewrite <- app_assoc. simpl. rewrite readlines_line by done. by rewrite IH.
Qed.

Lemma lstrip_spaces (s l : bytes) :
  Forall (fun c => is_space c = true) s -> lstrip (s ++ l) = lstrip l.
Proof. induction 1 as [| c s Hc _ IH]; [done |]. simpl. by rewrite Hc. Qed.

Lemma lstrip_plain (c : ascii) (l : bytes) :
  is_space c = false -> lstrip (c :: l) = c :: l.
Proof. intros Hc. simpl. by rewrite Hc. Qed.

(** Stripping a numeral padded with blanks and a newline gives it back. *)
Lemma strip_padded (v : bytes) (k : nat) :
  Forall numeric_char v -> v ≠ [] ->
  strip (v ++ replicate k " "%char ++ [newline]) = v.
Proof.
  intros Hv Hne. unfold strip.
  destruct v as [| c v]; [done |].
  pose proof (numeric_char_plain c (Forall_inv Hv)) as (Hc & _).
  change ((c :: v) ++ ?x) with (c :: (v ++ x)).
  rewrite lstrip_plain by done.
  change (c :: (v ++ ?x)) with ((c :: v) ++ x).
  rewrite !rev_app_distr, lstrip_spaces.
  2:{ apply Forall_app. split; [by apply Forall_singleton |].
      apply Forall_rev, Forall_replicate. reflexivity. }
  destruct (rev (c :: v)) as [| d r] eqn:Hr.
  { apply (f_equal length) in Hr. rewrite length_rev in Hr. done. }
  assert (numeric_char d) as Hd.
  { apply Forall_rev in Hv. rewrite Hr in Hv. by apply Forall_inv in Hv. }
  pose proof (numeric_char_plain d Hd) as (Hsp & _).
  rewrite lstrip_plain by done. rewrite <- Hr. apply rev_involutive.
Qed.

End lines.

(** ** Writing at the cursor *)

Section files.

Lemma write_at_end (b : bytes) (f : File.t) :
  at_end f ->
  File.data (File.write b f) = File.data f ++ b ∧ at_end (File.write b f).
Proof.
  unfold at_end, File.write. intros Hf. simpl. rewrite Hf.
  rewrite firstn_all, Nat.sub_diag. simpl.
  rewrite drop_ge by lia. rewrite app_nil_r, length_app. done.
Qed.

(** Overwriting a stretch of the file leaves what is around it alone. *)
Lemma write_inside (v a b c : bytes) (f : File.t) :
  File.data f = a ++ b ++ c -> length b = length v ->
  File.data (File.write v (File.seek (length a) f)) = a ++ v ++ c.
Proof.
  intros Hf Hb. unfold File.write, File.seek. simpl. rewrite Hf.
  rewrite take_app_length.
  replace (length a - length (a ++ b ++ c))%nat with 0%nat
    by (rewrite !length_app; lia).
  simpl. rewrite (app_assoc a b c), drop_app_length'; [done |].
  rewrite length_app. lia.
Qed.

End files.

(** ** Patching the header *)

Section headers.
Import MmWriter UciWriter UciReader.

Lemma FAKE_HEADER_split (n : nat) :
  (n <= MAX_HEADER_LENGTH)%nat ->
  FAKE_HEADER = replicate n " "%char
                ++ replicate (MAX_HEADER_LENGTH - n) " "%char ++ [newline].
Proof.
  intros Hn. unfold FAKE_HEADER. rewrite app_assoc, <- replicate_add.
  by replace (n + (MAX_HEADER_LENGTH - n))%nat with MAX_HEADER_LENGTH by lia.
Qed.

Lemma update_headers_loop_cons (v : bytes) (values : list bytes) (offset : nat) :
  update_headers_loop (v :: values) offset
  = if (length FAKE_HEADER <? length v)%nat
    then raise (ValueError "Invalid header: value too large!")
    else on_fout (File.seek offset) >> on_fout (File.write v) >>
         update_headers_loop values (offset + length FAKE_HEADER)%nat.
Proof. reflexivity. Qed.

(** Values that fit the reserved width replace the blank lines one by one
    and touch nothing else. *)
Lemma update_headers_loop_fits (values : list bytes) :
  Forall (fun v => (length v <= MAX_HEADER_LENGTH)%nat) values ->
  forall (a rest : bytes) (w : MmWriter.t),
    File.data (fout w) = a ++ concat (map (fun _ => FAKE_HEADER) values) ++ rest ->
    exists w',
      update_headers_loop values (length a) w = (Return tt, w')
      ∧ File.data (fout w') = a ++ concat (map pad values) ++ rest
      ∧ File.closed (fout w') = File.closed (fout w).
Proof.
  induction 1 as [| v values Hv _ IH]; intros a rest w Hw.
  { exists w. by simpl in *. }
  rewrite update_headers_loop_cons.
  assert (length FAKE_HEADER = 21%nat) as HF by reflexivity.
  assert ((length FAKE_HEADER <? length v)%nat = false) as ->
    by (apply Nat.ltb_ge; unfold MAX_HEADER_LENGTH in Hv; lia).
  unfold bind at 1 2. cbn [on_fout].
  set (w1 := {| fout := File.write v (File.seek (length a) (fout w));
                last_docno := last_docno w;
                headers_written := headers_written w |}).
  assert (File.data (fout w1)
          = (a ++ pad v) ++ concat (map (fun _ => FAKE_HEADER) values) ++ rest)
    as Hw1.
  { change (concat (map (fun _ => FAKE_HEADER) (v :: values)))
      with (FAKE_HEADER ++ concat (map (fun _ => FAKE_HEADER) values)) in Hw.
    rewrite (FAKE_HEADER_split (length v) Hv) in Hw at 1.
    rewrite <- !app_assoc in Hw. cbn [fout w1].
    rewrite (write_inside v a _ _ _ Hw) by apply length_replicate.
    unfold pad. by rewrite <- !app_assoc. }
  destruct (IH _ _ _ Hw1) as (w' & Hrun & Hdata & Hcl).
  exists w'. replace (length a + length FAKE_HEADER)%nat with (length (a ++ pad v)).
  2:{ rewrite length_app. unfold pad. rewrite !length_app, length_replicate.
      simpl. unfold MAX_HEADER_LENGTH in *. lia. }
  split; [exact Hrun |]. split; [| exact Hcl].
  rewrite Hdata. cbn [map concat]. by rewrite <- !app_assoc.
Qed.

(** The error is raised exactly for a value longer than a whole blank
    line, newline included. *)
Lemma update_headers_loop_raises (values : list bytes) :
  forall (offset : nat) (w : MmWriter.t),
    (exists e, (update_headers_loop values offset w).1 = Raise e)
    <-> Exists (fun v => (length FAKE_HEADER < length v)%nat) values.
Proof.
  induction values as [| v values IH]; intros offset w.
  { split; [intros [e He]; discriminate | intros H; inversion H]. }
  rewrite update_headers_loop_cons.
  destruct (length FAKE_HEADER <? length v)%nat eqn:Hlt.
  - apply Nat.ltb_lt in Hlt. split; [by left | intros _; by eexists].
  - apply Nat.ltb_ge in Hlt. unfold bind at 1 2. cbn [on_fout]. rewrite IH.
    rewrite Exists_cons. split; [by right | intros [? | ?]; [lia | done]].
Qed.

(** Reading back a header whose three lines hold padded numerals. *)
Lemma init_padded (nd nt nz : Z) (body : bytes) :
  init (pad (to_utf8 (str nd)) ++ pad (to_utf8 (str nt))
          ++ pad (to_utf8 (str nz)) ++ body)
  = Return (mkHeader nd nt nz).
Proof.
  assert (forall n rest, readlines (pad (to_utf8 (str n)) ++ rest)
                         = pad (to_utf8 (str n)) :: readlines rest) as Hline.
  { intros n rest. unfold pad. rewrite app_assoc, <- app_assoc. simpl.
    rewrite readlines_line; [by rewrite <- app_assoc |].
    destruct (str_chars n) as [Hc _]. intros Hin.
    apply elem_of_app in Hin as [Hin | Hin].
    - rewrite Forall_forall in Hc. apply Hc in Hin.
      by destruct (numeric_char_plain _ Hin) as (_ & ? & _).
    - by apply elem_of_replicate in Hin as [? _]. }
  assert (forall n, int (strip (pad (to_utf8 (str n)))) = Some n) as Hint.
  { intros n. destruct (str_chars n) as [Hc Hne]. unfold pad.
    rewrite strip_padded by done. apply int_str. }
  unfold init. rewrite !Hline, !Hint. done.
Qed.

End headers.

(** ** One document: coercion, sorting, the lines written *)

Section vectors.
Import MmWriter UciWriter.

Lemma coerce_cons (x : Z) (y : Q) (b : bow) :
  coerce ((x, y) :: b)
  = if int_of_number y =? 0 then coerce b
    else (x, int_of_number y) :: coerce b.
Proof. unfold coerce. simpl. by destruct (int_of_number y =? 0). Qed.

Lemma coerce_nonzero (b : bow) : Forall (fun p => snd p ≠ 0) (coerce b).
Proof.
  induction b as [| [x y] b IH]; [constructor |]. rewrite coerce_cons.
  destruct (int_of_number y =? 0) eqn:Hy; [exact IH |].
  constructor; [| exact IH]. simpl. by apply Z.eqb_neq.
Qed.

Lemma filter_all {A} (P : A -> Prop) `{forall x, Decision (P x)} (l : list A) :
  Forall P l -> filter P l = l.
Proof.
  induction 1 as [| x l Hx _ IH]; [done |].
  rewrite filter_cons_True by done. by rewrite IH.
Qed.

(** Coercion keeps the pairs whose integer weight is not zero, in order. *)
Lemma coerce_kept (b : bow) :
  coerce b = map (fun p => (fst p, int_of_number (snd p)))
                 (filter (fun p => int_of_number (snd p) ≠ 0) b).
Proof.
  induction b as [| [x y] b IH]; [done |]. rewrite coerce_cons.
  destruct (int_of_number y =? 0) eqn:Hy.
  - apply Z.eqb_eq in Hy. rewrite filter_cons_False by (simpl; lia). exact IH.
  - apply Z.eqb_neq in Hy. rewrite filter_cons_True by done. simpl.
    by rewrite IH.
Qed.

Lemma insert_by_id_perm (p : Z * Z) (v : vector) : insert_by_id p v ≡ₚ p :: v.
Proof.
  induction v as [| q v IH]; [done |]. simpl.
  destruct (fst p <? fst q); [done |]. rewrite IH. apply perm_swap.
Qed.

Lemma sorted_by_id_perm (v : vector) : sorted_by_id v ≡ₚ v.
Proof.
  induction v as [| p v IH]; [done |]. unfold sorted_by_id in *. simpl.
  by rewrite insert_by_id_perm, IH.
Qed.

Lemma max_id_perm (l1 l2 : list Z) : l1 ≡ₚ l2 -> max_id l1 = max_id l2.
Proof.
  unfold max_id. induction 1; simpl; [done | by f_equal | lia | congruence].
Qed.

Lemma max_id_app (l1 l2 : list Z) :
  max_id (l1 ++ l2) = Z.max (max_id l1) (max_id l2).
Proof.
  unfold max_id. induction l1 as [| x l1 IH]; simpl; [| rewrite IH; lia].
  induction l2 as [| y l2 IH]; simpl; lia.
Qed.

(** [max_id] is a least upper bound of non-negative ids, and one of them
    when there are any. *)
Lemma max_id_bound (l : list Z) : Forall (fun x => x <= max_id l) l.
Proof.
  unfold max_id. induction l as [| x l IH]; constructor; simpl; [lia |].
  eapply Forall_impl; [exact IH |]. simpl. lia.
Qed.

Lemma max_id_elem (l : list Z) :
  Forall (fun x => 0 <= x) l -> l ≠ [] -> max_id l ∈ l.
Proof.
  unfold max_id. induction 1 as [| x l Hx Hl IH]; [done |]. intros _. simpl.
  destruct l as [| y l'].
  { simpl. replace (Z.max x (-1)) with x by lia. by left. }
  destruct (Z.max_spec x (foldr Z.max (-1) (y :: l'))) as [[_ ->] | [_ ->]].
  - right. by apply IH.
  - by left.
Qed.

(** What [write_vector] does with a coerced document. *)
Lemma write_vector_coerce (i : Z) (b : bow) (w : MmWriter.t) :
  write_vector i (coerce b) w
  = (Return (max_id (map fst (coerce b)), Z.of_nat (length (coerce b))),
     {| fout := File.write (concat (doc_lines i b)) (fout w);
        last_docno := last_docno w;
        headers_written := headers_written w |}).
Proof.
  unfold write_vector, bind, on_fout, ret, doc_lines.
  rewrite (filter_all _ _ (coerce_nonzero b)).
  pose proof (sorted_by_id_perm (coerce b)) as Hp.
  pose proof (max_id_perm _ _ (Permutation_map fst Hp)) as Hm.
  unfold max_id in Hm |- *. by rewrite Hm, (Permutation_length Hp).
Qed.

End vectors.

(** ** The loop over the documents *)

Section loop.
Import MmWriter UciWriter.

Lemma record_offset_run (index : bool) (s : locals) (w : MmWriter.t) :
  (offsets s = [] -> poslast s < 0) ->
  record_offset index s w
  = (Return (if index
             then let st := push (offsets s, poslast s) (File.tell (fout w)) in
                  {| num_terms := num_terms s; num_nnz := num_nnz s;
                     docno := docno s; poslast := st.2; offsets := st.1 |}
             else s), w).
Proof.
  intros Hs. unfold record_offset. destruct index; [| done].
  unfold bind, tell, push. simpl.
  destruct (File.tell (fout w) =? poslast s) eqn:Hpos; [| done].
  destruct (offsets s) as [| o os] eqn:Ho; [| done].
  apply Z.eqb_eq in Hpos. specialize (Hs eq_refl). unfold File.tell in Hpos. lia.
Qed.

Lemma write_corpus_loop_cons (pc : Z) (index : bool) (b : bow)
    (rest : list bow) (i : Z) (s : locals) :
  write_corpus_loop pc index (b :: rest) i s
  = (progress i pc >>
     let* s1 := record_offset index s in
     let* r := write_vector i (coerce b) in
     write_corpus_loop pc index rest (i + 1)
       {| num_terms := Z.max (num_terms s1) (1 + fst r);
          num_nnz := num_nnz s1 + snd r;
          docno := i; poslast := poslast s1; offsets := offsets s1 |}).
Proof. reflexivity. Qed.

(** The loop never raises when [progress_cnt] is not zero; it appends the
    entry lines of each document and keeps the running totals. *)
Lemma write_corpus_loop_run (pc : Z) (index : bool) (corpus : list bow) :
  pc ≠ 0 ->
  forall (i : Z) (s : locals) (w : MmWriter.t),
    at_end (fout w) ->
    (offsets s = [] -> poslast s < 0) ->
    0 <= num_terms s ->
    exists s' w',
      write_corpus_loop pc index corpus i s w = (Return s', w')
      ∧ at_end (fout w')
      ∧ File.data (fout w') = File.data (fout w) ++ concat (body_lines i corpus)
      ∧ File.closed (fout w') = File.closed (fout w)
      ∧ num_terms s'
        = Z.max (num_terms s) (1 + max_id (map fst (written_pairs corpus)))
      ∧ num_nnz s' = num_nnz s + Z.of_nat (length (written_pairs corpus))
      ∧ docno s' = (if corpus is [] then docno s
                    else i + Z.of_nat (length corpus) - 1)
      ∧ (offsets s', poslast s')
        = if index
          then foldl push (offsets s, poslast s)
                 (doc_starts i (File.tell (fout w)) corpus)
          else (offsets s, poslast s).
Proof.
  intros Hpc. induction corpus as [| b rest IH]; intros i s w Hend Hoffs Hnt.
  { exists s, w. cbn [write_corpus_loop body_lines concat]. rewrite app_nil_r.
    do 4 (split; [done |]). split; [unfold max_id; simpl; lia |].
    split; [simpl; lia |]. split; [done |]. by destruct index. }
  rewrite write_corpus_loop_cons. unfold bind at 1, progress.
  apply Z.eqb_neq in Hpc as Hpc'. rewrite Hpc'. cbn [ret].
  unfold bind at 1. rewrite (record_offset_run index s w Hoffs).
  unfold bind at 1. rewrite write_vector_coerce.
  cbn [fst snd].
  destruct (write_at_end (concat (doc_lines i b)) (fout w) Hend) as [Hd He].
  match goal with
  | |- context [write_corpus_loop pc index rest (i + 1) ?s2 ?w2] =>
      destruct (IH (i + 1) s2 w2) as
        (s' & w' & Hrun & Hend' & Hdata & Hcl & Hterms & Hnnz & Hdoc & Hoff)
  end.
  { exact He. }
  { destruct index; [| exact Hoffs]. unfold push. cbn. intros Hnil.
    symmetry in Hnil. by apply app_cons_not_nil in Hnil. }
  { destruct index; simpl; lia. }
  exists s', w'. rewrite Hrun. split; [done |]. split; [done |].
  cbn [fout] in Hdata, Hcl. split.
  { rewrite Hdata, Hd. cbn [body_lines]. by rewrite concat_app, <- app_assoc. }
  split; [by rewrite Hcl |].
  assert (written_pairs (b :: rest) = coerce b ++ written_pairs rest) as ->
    by reflexivity.
  split.
  { rewrite Hterms, map_app, max_id_app. destruct index; simpl; lia. }
  split.
  { rewrite Hnnz, length_app. destruct index; simpl; lia. }
  split.
  { rewrite Hdoc. cbn [length docno]. destruct rest; simpl; lia. }
  rewrite Hoff. destruct index; [| done]. cbn [doc_starts foldl].
  cbn [offsets poslast fout]. rewrite <- surjective_pairing.
  do 2 f_equal. unfold File.tell, File.write. cbn [File.pos]. lia.
Qed.

End loop.

(** ** The offsets list in closed form *)

Section offsets.

Lemma mark_length (ps : list Z) : length (mark ps) = length ps.
Proof. induction ps as [| p ps IH]; [done |]. simpl. by rewrite IH. Qed.

(** Slot [k] holds the sentinel when document [k + 1] starts where document
    [k] does, and the position of document [k] otherwise. *)
Lemma mark_lookup (ps : list Z) (k : nat) (p : Z) :
  ps !! k = Some p ->
  mark ps !! k = Some match ps !! S k with
                      | Some q => if q =? p then -1 else p
                      | None => p
                      end.
Proof.
  revert k. induction ps as [| p0 ps IH]; intros k Hk; [done |].
  destruct k as [| k].
  - simpl in Hk. injection Hk as ->. by destruct ps.
  - simpl in Hk. apply IH in Hk. exact Hk.
Qed.

(** No two neighbouring slots hold the same real position. *)
Lemma mark_neighbours (ps : list Z) (k : nat) (x y : Z) :
  mark ps !! k = Some x -> mark ps !! S k = Some y ->
  x ≠ -1 -> y ≠ -1 -> x ≠ y.
Proof.
  intros Hx Hy Hx1 Hy1.
  destruct (ps !! k) as [p |] eqn:Hp.
  2:{ apply lookup_ge_None in Hp. apply lookup_lt_Some in Hx.
      rewrite mark_length in Hx. lia. }
  destruct (ps !! S k) as [q |] eqn:Hq.
  2:{ apply lookup_ge_None in Hq. apply lookup_lt_Some in Hy.
      rewrite mark_length in Hy. lia. }
  rewrite (mark_lookup _ _ _ Hp), Hq in Hx.
  rewrite (mark_lookup _ _ _ Hq) in Hy.
  injection Hx as <-. injection Hy as <-.
  destruct (q =? p) eqn:Hqp; [done |]. apply Z.eqb_neq in Hqp.
  destruct (ps !! S (S k)) as [r |]; [| congruence].
  destruct (r =? q); [done | congruence].
Qed.

Lemma mark_snoc (qs : list Z) (q p : Z) :
  mark ((qs ++ [q]) ++ [p])
  = (if p =? q then <[length qs := -1]> (mark (qs ++ [q]))
     else mark (qs ++ [q])) ++ [p].
Proof.
  induction qs as [| a qs IH]; simpl.
  { by destruct (p =? q). }
  rewrite IH.
  assert (exists h t, qs ++ [q] = h :: t) as (h & t & Hht)
    by (destruct qs; simpl; eauto).
  rewrite Hht. simpl. by destruct (p =? q).
Qed.

(** Recording the positions one after the other builds [mark]. *)
Lemma foldl_push_mark (ps : list Z) :
  foldl push ([], -1) ps = (mark ps, default (-1) (last ps)).
Proof.
  induction ps as [| p ps IH] using rev_ind; [done |].
  rewrite foldl_app, IH. simpl. rewrite last_snoc. unfold push. simpl.
  f_equal. destruct ps as [| q qs _] using rev_ind.
  { simpl. by destruct (p =? -1). }
  rewrite last_snoc. simpl. rewrite mark_snoc, mark_length, length_app.
  simpl. by replace (pred (length qs + 1))%nat with (length qs) by lia.
Qed.

End offsets.

(** ** The whole of [write_corpus] *)

Section write_corpus.
Import MmWriter UciWriter.

Lemma max_id_lower (l : list Z) : -1 <= max_id l.
Proof. unfold max_id. induction l; simpl; lia. Qed.

Lemma update_headers_loop_outcome (values : list bytes) :
  forall (offset : nat) (w : MmWriter.t),
    (update_headers_loop values offset w).1
    = if decide (Exists too_long values)
      then Raise (ValueError "Invalid header: value too large!")
      else Return tt.
Proof.
  induction values as [| v values IH]; intros offset w.
  { rewrite decide_False; [done | by intros H; inversion H]. }
  rewrite update_headers_loop_cons.
  destruct (length FAKE_HEADER <? length v)%nat eqn:Hlt.
  - apply Nat.ltb_lt in Hlt. rewrite decide_True; [done | by left].
  - apply Nat.ltb_ge in Hlt. unfold bind at 1 2. cbn [on_fout]. rewrite IH.
    destruct (decide (Exists too_long values)) as [He | He].
    + rewrite decide_True; [done | by right].
    + rewrite decide_False; [done |]. unfold too_long.
      rewrite Exists_cons. intros [? | ?]; [lia | done].
Qed.

Lemma update_headers_values (corpus : list bow) :
  update_headers (Z.of_nat (length corpus))
    (1 + max_id (map fst (written_pairs corpus)))
    (Z.of_nat (length (written_pairs corpus)))
  = update_headers_loop (header_values (header_of corpus)) 0.
Proof. reflexivity. Qed.

(** Up to the patch of the header: the loop has run, the body is written,
    and the three values handed to [update_headers] are those of
    [header_of]. *)
Lemma write_corpus_before_patch (corpus : list bow) (pc : Z) (index : bool) :
  pc ≠ 0 ->
  exists w1,
    File.data (fout w1)
    = [] ++ concat (map (fun _ => FAKE_HEADER) (header_values (header_of corpus)))
         ++ concat (body_lines 0 corpus)
    ∧ File.closed (fout w1) = false
    ∧ write_corpus corpus pc index
      = (update_headers (Z.of_nat (length corpus))
           (1 + max_id (map fst (written_pairs corpus)))
           (Z.of_nat (length (written_pairs corpus))) >>
         close >> ret (returned index corpus)) w1.
Proof.
  intros Hpc. unfold write_corpus, write_corpus_body.
  unfold bind at 1. cbn [write_headers].
  match goal with
  | |- context [bind (write_corpus_loop _ _ _ _ _) _ ?w0] =>
      destruct (write_corpus_loop_run pc index corpus Hpc 0 initial w0)
        as (s & w1 & Hrun & _ & Hdata & Hcl & Hterms & Hnnz & Hdoc & Hoff);
        [reflexivity | done | done |]
  end.
  exists w1. split; [exact Hdata |]. split; [by rewrite Hcl |].
  unfold bind at 1. rewrite Hrun.
  assert (docno s + 1 = Z.of_nat (length corpus)) as ->.
  { rewrite Hdoc. destruct corpus; simpl; lia. }
  assert (num_terms s = 1 + max_id (map fst (written_pairs corpus))) as ->.
  { rewrite Hterms. cbn [initial num_terms].
    pose proof (max_id_lower (map fst (written_pairs corpus))). lia. }
  assert (num_nnz s = Z.of_nat (length (written_pairs corpus))) as ->.
  { rewrite Hnnz. simpl. lia. }
  assert ((if index then Some (offsets s) else None) = returned index corpus)
    as ->; [| done].
  unfold returned. destruct index; [| done]. f_equal.
  cbn [initial offsets poslast] in Hoff. rewrite foldl_push_mark in Hoff.
  by injection Hoff as -> _.
Qed.

(** The outcome of the call, whatever the size of the counts. *)
Lemma write_corpus_outcome (corpus : list bow) (pc : Z) (index : bool) :
  pc ≠ 0 ->
  (write_corpus corpus pc index).1
  = if decide (Exists too_long (header_values (header_of corpus)))
    then Raise (ValueError "Invalid header: value too large!")
    else Return (returned index corpus).
Proof.
  intros Hpc.
  destruct (write_corpus_before_patch corpus pc index Hpc) as (w1 & _ & _ & ->).
  rewrite update_headers_values. unfold bind at 1.
  pose proof (update_headers_loop_outcome
                (header_values (header_of corpus)) 0 w1) as Hout.
  destruct (update_headers_loop _ 0 w1) as [[[] | e] w2];
    cbn [fst] in Hout; destruct (decide _); try discriminate.
  - reflexivity.
  - by injection Hout as ->.
Qed.

(** With counts that fit the reserved width the call returns and leaves a
    closed file made of the three patched header lines and the entry
    lines. *)
Lemma write_corpus_fits (corpus : list bow) (pc : Z) (index : bool) :
  pc ≠ 0 ->
  Forall fits (header_values (header_of corpus)) ->
  exists w,
    write_corpus corpus pc index = (Return (returned index corpus), w)
    ∧ File.data (fout w)
      = concat (map pad (header_values (header_of corpus)))
          ++ concat (body_lines 0 corpus)
    ∧ File.closed (fout w) = true.
Proof.
  intros Hpc Hfit.
  destruct (write_corpus_before_patch corpus pc index Hpc)
    as (w1 & Hdata & _ & ->).
  destruct (update_headers_loop_fits _ Hfit [] _ w1 Hdata)
    as (w2 & Hrun & Hdata2 & _).
  exists {| fout := File.close (fout w2); last_docno := last_docno w2;
            headers_written := headers_written w2 |}.
  rewrite update_headers_values. unfold bind at 1. cbn [length] in Hrun.
  rewrite Hrun. done.
Qed.

End write_corpus.

(** ** Reading back what was written *)

Section read_back.
Import MmWriter UciWriter UciReader.

Lemma readlines_lines (ls : list bytes) (rest : bytes) :
  Forall is_line ls -> readlines (concat ls ++ rest) = ls ++ readlines rest.
Proof.
  induction 1 as [| l ls (l' & -> & Hl') _ IH]; [done |].
  cbn [concat]. rewrite <- !app_assoc. cbn [app].
  rewrite readlines_line by done. by rewrite IH.
Qed.

Lemma str_no_newline (n : Z) : newline ∉ to_utf8 (str n).
Proof.
  destruct (str_chars n) as [Hc _]. intros Hin.
  rewrite Forall_forall in Hc. apply Hc in Hin.
  by destruct (numeric_char_plain _ Hin) as (_ & ? & _).
Qed.

Lemma pad_is_line (n : Z) : is_line (pad (to_utf8 (str n))).
Proof.
  eexists. unfold pad. rewrite app_assoc. split; [reflexivity |].
  intros Hin. apply elem_of_app in Hin as [Hin | Hin].
  - by apply str_no_newline in Hin.
  - by apply elem_of_replicate in Hin as [? _].
Qed.

Lemma entry_line_is_line (i : Z) (p : Z * Z) : is_line (entry_line i p).
Proof.
  exists (to_utf8 (str i) ++ [" "%char] ++ to_utf8 (str (fst p))
            ++ [" "%char] ++ to_utf8 (str (snd p))).
  split; [unfold entry_line; by rewrite <- !app_assoc |].
  rewrite !not_elem_of_app, !not_elem_of_cons.
  repeat split; try apply str_no_newline; try apply not_elem_of_nil;
    by vm_compute.
Qed.

Lemma body_lines_are_lines (corpus : list bow) :
  forall i, Forall is_line (body_lines i corpus).
Proof.
  induction corpus as [| b rest IH]; intros i; [constructor |].
  cbn [body_lines]. apply Forall_app. split; [| apply IH].
  unfold doc_lines. apply Forall_map, Forall_forall. intros p _.
  apply entry_line_is_line.
Qed.

Lemma body_lines_length (corpus : list bow) :
  forall i, length (body_lines i corpus) = length (written_pairs corpus).
Proof.
  induction corpus as [| b rest IH]; intros i; [done |].
  cbn [body_lines]. unfold written_pairs. cbn [map concat].
  rewrite !length_app, IH. unfold doc_lines. rewrite length_map.
  by rewrite (Permutation_length (sorted_by_id_perm (coerce b))).
Qed.

Lemma doc_starts_length (corpus : list bow) :
  forall i pos, length (doc_starts i pos corpus) = length corpus.
Proof.
  induction corpus as [| b rest IH]; intros i pos; [done |].
  simpl. by rewrite IH.
Qed.

(** The lines of a written file: three header lines, then the entry lines
    of every document in turn. *)
Lemma readlines_written (h : CorpusHeader) (corpus : list bow) :
  readlines (concat (map pad (header_values h)) ++ concat (body_lines 0 corpus))
  = map pad (header_values h) ++ body_lines 0 corpus.
Proof.
  rewrite readlines_lines.
  2:{ unfold header_values. repeat constructor; apply pad_is_line. }
  f_equal. rewrite <- (app_nil_r (concat (body_lines 0 corpus))).
  rewrite readlines_lines by apply body_lines_are_lines.
  by rewrite app_nil_r.
Qed.

(** The header read back from a written file is the one that was patched
    in. *)
Lemma init_written (h : CorpusHeader) (body : bytes) :
  init (concat (map pad (header_values h)) ++ body) = Return h.
Proof.
  destruct h as [nd nt nz]. unfold header_values. cbn [map concat].
  rewrite app_nil_r, <- !app_assoc. apply init_padded.
Qed.

End read_back.

(** * The UCI writer *)

Section writer.
Import MmWriter.

(** C9. Writing an empty corpus succeeds: the three header lines hold 0, a
    reader gets [num_docs = num_terms = num_nnz = 0] from the file, and the
    offsets list returned when [index] is set is empty. *)
Theorem C9_write_empty_corpus (progress_cnt : Z) (index : bool) :
  let r := UciWriter.write_corpus [] progress_cnt index in
  r.1 = Return (if index then Some [] else None)
  ∧ File.data (fout r.2)
    = pad (to_utf8 "0") ++ pad (to_utf8 "0") ++ pad (to_utf8 "0")
  ∧ File.closed (fout r.2) = true
  ∧ UciReader.init (File.data (fout r.2)) = Return (mkHeader 0 0 0).
Proof. destruct index; repeat split; reflexivity. Qed.

Lemma written_ids_top (corpus : list bow) :
  let ids := map fst (written_pairs corpus) in
  let nt := num_terms (header_of corpus) in
  (ids = [] -> nt = 0)
  ∧ Forall (fun x => x < nt) ids
  ∧ (Forall (fun x => 0 <= x) ids -> ids ≠ [] -> nt - 1 ∈ ids).
Proof.
  cbn zeta. unfold header_of. cbn [num_terms].
  set (ids := map fst (written_pairs corpus)). repeat split.
  - by intros ->.
  - eapply Forall_impl; [apply max_id_bound |]. simpl. lia.
  - intros Hpos Hne. replace (1 + max_id ids - 1) with (max_id ids) by lia.
    by apply max_id_elem.
Qed.

(** C3. After a write that completes, the header read back from the file
    holds the number of documents consumed, one more than the largest
    feature id among the written pairs (0 when there is none), and the
    number of entry lines in the file; no blank placeholder line is left. *)
Theorem C3_header_integrity (corpus : list bow) (progress_cnt : Z)
    (index : bool) :
  progress_cnt ≠ 0 ->
  Forall fits (header_values (header_of corpus)) ->
  let h := header_of corpus in
  let ids := map fst (written_pairs corpus) in
  exists w,
    UciWriter.write_corpus corpus progress_cnt index
    = (Return (returned index corpus), w)
    ∧ UciReader.init (File.data (fout w)) = Return h
    ∧ take 3 (UciReader.readlines (File.data (fout w)))
      = map pad (header_values h)
    ∧ drop 3 (UciReader.readlines (File.data (fout w))) = body_lines 0 corpus
    ∧ num_docs h = Z.of_nat (length corpus)
    ∧ num_nnz h = Z.of_nat (length (body_lines 0 corpus))
    ∧ num_nnz h = Z.of_nat (length (written_pairs corpus))
    ∧ (ids = [] -> num_terms h = 0)
    ∧ Forall (fun x => x < num_terms h) ids
    ∧ (Forall (fun x => 0 <= x) ids -> ids ≠ [] -> num_terms h - 1 ∈ ids).
Proof.
  intros Hpc Hfit h ids.
  destruct (write_corpus_fits corpus progress_cnt index Hpc Hfit)
    as (w & Hrun & Hdata & _).
  exists w. split; [exact Hrun |]. rewrite Hdata.
  split; [apply init_written |]. rewrite readlines_written.
  split; [done |]. split; [done |]. split; [done |].
  split; [by rewrite body_lines_length |]. split; [done |].
  apply written_ids_top.
Qed.

Lemma coerce_nonzero_pairs (b : bow) :
  UciWriter.coerce (nonzero_pairs b) = UciWriter.coerce b.
Proof.
  induction b as [| [x y] b IH]; [done |]. unfold nonzero_pairs in *.
  rewrite coerce_cons.
  destruct (int_of_number y =? 0) eqn:Hy.
  - apply Z.eqb_eq in Hy. by rewrite filter_cons_False by (simpl; lia).
  - rewrite filter_cons_True by (simpl; lia).
    by rewrite coerce_cons, Hy, IH.
Qed.

Lemma write_corpus_loop_nonzero (pc : Z) (index : bool) (corpus : list bow) :
  forall i s w,
    UciWriter.write_corpus_loop pc index (map nonzero_pairs corpus) i s w
    = UciWriter.write_corpus_loop pc index corpus i s w.
Proof.
  induction corpus as [| b rest IH]; intros i s w; [done |].
  cbn [map]. rewrite !write_corpus_loop_cons, coerce_nonzero_pairs.
  unfold bind.
  destruct (UciWriter.progress i pc w) as [[[] | e] w1]; [| done].
  destruct (UciWriter.record_offset index s w1) as [[s1 | e] w2]; [| done].
  destruct (write_vector i (UciWriter.coerce b) w2) as [[r | e] w3]; [| done].
  apply IH.
Qed.

(** C6. A pair whose weight truncates to zero leaves no trace: the call
    behaves as if the pair had not been there, the entry lines of a document
    are those of its pairs with a non-zero integer weight, and [num_nnz]
    counts exactly these pairs. *)
Theorem C6_zero_weight_exclusion (corpus : list bow) (progress_cnt : Z)
    (index : bool) :
  progress_cnt ≠ 0 ->
  Forall fits (header_values (header_of corpus)) ->
  UciWriter.write_corpus (map nonzero_pairs corpus) progress_cnt index
  = UciWriter.write_corpus corpus progress_cnt index
  ∧ (forall i b,
       doc_lines i b
       ≡ₚ map (fun p => entry_line i (fst p, int_of_number (snd p)))
            (nonzero_pairs b))
  ∧ exists w h,
      UciWriter.write_corpus corpus progress_cnt index
      = (Return (returned index corpus), w)
      ∧ drop 3 (UciReader.readlines (File.data (fout w))) = body_lines 0 corpus
      ∧ UciReader.init (File.data (fout w)) = Return h
      ∧ num_nnz h = Z.of_nat (length (concat (map nonzero_pairs corpus))).
Proof.
  intros Hpc Hfit. split; [| split].
  - unfold UciWriter.write_corpus, UciWriter.write_corpus_body, bind.
    destruct (UciWriter.write_headers init) as [[[] | e] w0]; [| done].
    by rewrite write_corpus_loop_nonzero.
  - intros i b. unfold doc_lines.
    rewrite (sorted_by_id_perm (UciWriter.coerce b)), coerce_kept.
    by rewrite map_map.
  - destruct (write_corpus_fits corpus progress_cnt index Hpc Hfit)
      as (w & Hrun & Hdata & _).
    exists w, (header_of corpus). split; [exact Hrun |]. rewrite Hdata.
    rewrite readlines_written. split; [done |].
    split; [apply init_written |]. cbn [header_of num_nnz]. f_equal.
    unfold written_pairs. clear. induction corpus as [| b rest IH]; [done |].
    cbn [map concat]. rewrite !length_app, IH. f_equal.
    rewrite coerce_kept. apply length_map.
Qed.

(** C2. With [index] set the returned list has one slot per document; a
    slot holds the sentinel [-1] when the next document was found to start
    at the same position, and the position of its document otherwise, so
    two neighbouring slots never hold the same real position. *)
Theorem C2_offsets_sentinel (corpus : list bow) (progress_cnt : Z) :
  progress_cnt ≠ 0 ->
  let ps := doc_starts 0 body_start corpus in
  (UciWriter.write_corpus corpus progress_cnt true).1
  = (if decide (Exists too_long (header_values (header_of corpus)))
     then Raise (ValueError "Invalid header: value too large!")
     else Return (Some (mark ps)))
  ∧ length (mark ps) = length corpus
  ∧ (forall k p,
       ps !! k = Some p ->
       mark ps !! k = Some match ps !! S k with
                           | Some q => if q =? p then -1 else p
                           | None => p
                           end)
  ∧ (forall k x y,
       mark ps !! k = Some x -> mark ps !! S k = Some y ->
       x ≠ -1 -> y ≠ -1 -> x ≠ y).
Proof.
  intros Hpc ps. split; [| split; [| split]].
  - apply (write_corpus_outcome corpus progress_cnt true Hpc).
  - subst ps. by rewrite mark_length, doc_starts_length.
  - apply mark_lookup.
  - apply mark_neighbours.
Qed.

(** C4. A count of 21 digits is longer than the 20 reserved bytes, yet no
    error is raised: the value is written over the newline of its header
    line, the call returns, and the file cannot be read back.  The error
    comes with 22 digits; the header is then left partly blank. *)
Theorem C4_header_overflow_unnoticed :
  let corpus : list bow := [[(99999999999999999999, 1 # 1)]] in
  let r := UciWriter.write_corpus corpus 1000 true in
  let corpus' : list bow := [[(999999999999999999999, 1 # 1)]] in
  let r' := UciWriter.write_corpus corpus' 1000 true in
  num_terms (header_of corpus) = 100000000000000000000
  ∧ length (to_utf8 (str (num_terms (header_of corpus)))) = 21%nat
  ∧ UciWriter.MAX_HEADER_LENGTH = 20%nat
  ∧ r.1 = Return (Some [63])
  ∧ take 2 (UciReader.readlines (File.data (fout r.2)))
    = [pad (to_utf8 "1");
       to_utf8 "100000000000000000000" ++ pad (to_utf8 "1")]
  ∧ UciReader.init (File.data (fout r.2)) = Raise UciReader.invalid_literal
  ∧ length (to_utf8 (str (num_terms (header_of corpus')))) = 22%nat
  ∧ r'.1 = Raise (ValueError "Invalid header: value too large!")
  ∧ take 3 (UciReader.readlines (File.data (fout r'.2)))
    = [pad (to_utf8 "1"); UciWriter.FAKE_HEADER; UciWriter.FAKE_HEADER]
  ∧ UciReader.init (File.data (fout r'.2)) = Raise UciReader.invalid_literal.
Proof. vm_compute. repeat split; reflexivity. Qed.

End writer.

(** * The layout of the UCI header *)

Section header_layout.
Import MmWriter.

Lemma write_headers_init :
  UciWriter.write_headers init
  = (Return tt,
     {| fout := {| File.data := UciWriter.FAKE_HEADER ++ UciWriter.FAKE_HEADER
                                  ++ UciWriter.FAKE_HEADER;
                   File.pos := 3 * length UciWriter.FAKE_HEADER;
                   File.closed := false |};
        last_docno := -1; headers_written := true |}).
Proof. reflexivity. Qed.

Lemma pad_length (v : bytes) :
  fits v -> length (pad v) = length UciWriter.FAKE_HEADER.
Proof.
  unfold fits, pad. intros Hv. rewrite !length_app, length_replicate.
  change (length UciWriter.FAKE_HEADER) with (S UciWriter.MAX_HEADER_LENGTH).
  cbn [length]. lia.
Qed.

Lemma patched_fits (nd nt nz : Z) :
  Forall fits (header_values (mkHeader nd nt nz)) ->
  patched nd nt nz
  = pad (to_utf8 (str nd)) ++ pad (to_utf8 (str nt)) ++ pad (to_utf8 (str nz)).
Proof.
  intros Hfit. unfold patched, bind. rewrite write_headers_init.
  match goal with
  | |- context [UciWriter.update_headers nd nt nz ?w0] =>
      destruct (update_headers_loop_fits _ Hfit [] [] w0)
        as (w' & Hrun & Hdata & _); [reflexivity |]
  end.
  change (UciWriter.update_headers nd nt nz)
    with (UciWriter.update_headers_loop (header_values (mkHeader nd nt nz)) 0).
  cbn [length] in Hrun. rewrite Hrun. cbn [snd]. rewrite Hdata.
  unfold header_values. cbn [map concat app num_docs num_terms num_nnz].
  by rewrite !app_nil_r.
Qed.

(** C5 (amended). The header is three lines of 20 blanks and a newline, so
    a line takes 21 bytes; the i-th value is written at offset 21 * i, the
    start of its own line, and each patched line holds its value followed by
    the blanks that are left. *)
Theorem C5_header_layout (nd nt nz : Z) :
  Forall fits (header_values (mkHeader nd nt nz)) ->
  UciReader.readlines (File.data (fout (UciWriter.write_headers init).2))
  = [UciWriter.FAKE_HEADER; UciWriter.FAKE_HEADER; UciWriter.FAKE_HEADER]
  ∧ UciWriter.FAKE_HEADER
    = replicate UciWriter.MAX_HEADER_LENGTH " "%char ++ [UciReader.newline]
  ∧ length UciWriter.FAKE_HEADER = S UciWriter.MAX_HEADER_LENGTH
  ∧ patched_at (length UciWriter.FAKE_HEADER) nd nt nz
  ∧ UciReader.readlines (patched nd nt nz)
    = map pad (header_values (mkHeader nd nt nz)).
Proof.
  intros Hfit. do 3 (split; [reflexivity |]).
  pose proof (patched_fits nd nt nz Hfit) as Hpatched.
  unfold header_values in Hfit. cbn [map num_docs num_terms num_nnz] in Hfit.
  apply Forall_cons in Hfit as [Hd Hfit]. apply Forall_cons in Hfit as [Ht Hfit].
  apply Forall_cons in Hfit as [Hz _].
  pose proof (pad_length _ Hd) as Ld. pose proof (pad_length _ Ht) as Lt.
  split.
  - intros i n Hi. unfold value_at. rewrite Hpatched.
    destruct i as [| [| [| i]]]; simpl in Hi; [| | | done]; injection Hi as <-.
    + simpl drop. unfold pad at 1. rewrite <- app_assoc. apply take_app_length.
    + replace (1 * length UciWriter.FAKE_HEADER)%nat
        with (length (pad (to_utf8 (str nd)))) by lia.
      rewrite drop_app_length. unfold pad at 1. rewrite <- app_assoc.
      apply take_app_length.
    + replace (2 * length UciWriter.FAKE_HEADER)%nat
        with (length (pad (to_utf8 (str nd)) ++ pad (to_utf8 (str nt))))
        by (rewrite length_app; lia).
      rewrite app_assoc, drop_app_length. unfold pad. apply take_app_length.
  - rewrite Hpatched.
    pose proof (readlines_written (mkHeader nd nt nz) []) as Hr.
    unfold header_values in Hr |- *.
    cbn [map concat body_lines num_docs num_terms num_nnz] in Hr |- *.
    by rewrite !app_nil_r in Hr.
Qed.

End header_layout.

(** * Saving with a vocabulary *)

Section saving.

Lemma foldr_max_spec (k : Z) (ks : list Z) :
  In (foldr Z.max k ks) (k :: ks)
  ∧ forall x, In x (k :: ks) -> x <= foldr Z.max k ks.
Proof.
  induction ks as [| a ks [Hin Hle]]; simpl.
  { split; [by left | intros x [<- | []]; lia]. }
  split.
  - destruct (Z.max_spec a (foldr Z.max k ks)) as [[_ ->] | [_ ->]].
    + destruct Hin as [Hin | Hin]; [by left | by right; right].
    + right. by left.
  - intros x [<- | [<- | Hx]].
    + specialize (Hle k (or_introl eq_refl)). lia.
    + lia.
    + specialize (Hle x (or_intror Hx)). lia.
Qed.

(** [max_key] is a key of a non-empty mapping and bounds all of them. *)
Lemma max_key_spec (m : gmap Z string) :
  m ≠ ∅ ->
  is_Some (m !! UciCorpus.max_key m)
  ∧ forall k, is_Some (m !! k) -> k <= UciCorpus.max_key m.
Proof.
  intros Hm. unfold UciCorpus.max_key.
  assert (forall k, In k (map fst (map_to_list m)) <-> is_Some (m !! k)) as Hkeys.
  { intros k. rewrite in_map_iff. split.
    - intros ([k' v] & <- & Hin). apply list_elem_of_In in Hin.
      apply elem_of_map_to_list in Hin. by eexists.
    - intros [v Hv]. exists (k, v). split; [done |].
      apply list_elem_of_In. by apply elem_of_map_to_list. }
  destruct (map fst (map_to_list m)) as [| k ks] eqn:Hl.
  { apply map_eq_nil in Hl. by apply map_to_list_empty_iff in Hl. }
  destruct (foldr_max_spec k ks) as [Hin Hle]. split.
  - by apply Hkeys.
  - intros x Hx. apply Hle. by apply Hkeys.
Qed.

Lemma placeholder_no_newline : UciReader.newline ∉ to_utf8 "---".
Proof.
  intros H. cbn in H.
  repeat (apply elem_of_cons in H as [H | H]; [discriminate |]).
  by apply elem_of_nil in H.
Qed.

(** C7 (amended). The coordinate dialect writes the size of the mapping as
    [num_terms]; the UCI dialect hands no vocabulary size to its writer, so
    the file it writes does not depend on the mapping and its header holds
    one more than the largest feature id written. *)
Theorem C7_declared_num_terms (dict_from_corpus : list bow -> gmap Z string)
    (corpus : list bow) (id2word : gmap Z string) (progress_cnt : Z) :
  progress_cnt ≠ 0 ->
  Forall fits (header_values (header_of corpus)) ->
  num_terms (MmCorpus.save_corpus corpus (Some id2word))
  = Z.of_nat (size id2word)
  ∧ (forall mapping,
       (UciCorpus.save_corpus dict_from_corpus corpus mapping progress_cnt).2
       = UciWriter.write_corpus corpus progress_cnt true)
  ∧ exists h,
      UciReader.init
        (File.data (MmWriter.fout
           (UciCorpus.save_corpus dict_from_corpus corpus (Some id2word)
              progress_cnt).2.2))
      = Return h
      ∧ num_terms h = 1 + max_id (map fst (written_pairs corpus)).
Proof.
  intros Hpc Hfit. split; [reflexivity |].
  assert (forall mapping,
            (UciCorpus.save_corpus dict_from_corpus corpus mapping
               progress_cnt).2
            = UciWriter.write_corpus corpus progress_cnt true) as Hsame.
  { intros mapping. unfold UciCorpus.save_corpus.
    by destruct (UciCorpus.vocabulary _ _ _). }
  split; [exact Hsame |]. rewrite Hsame.
  destruct (write_corpus_fits corpus progress_cnt true Hpc Hfit)
    as (w & -> & Hdata & _).
  exists (header_of corpus). cbn [snd]. rewrite Hdata.
  split; [apply init_written | reflexivity].
Qed.

(** C10. The vocabulary file holds one line per feature id from 0 up to
    [num_terms - 1], in this order: the word of the id, or [---] for an id
    the mapping lacks.  [num_terms] is one more than the largest key of a
    non-empty mapping, 0 for an empty one, and the size of the mapping
    inferred from the corpus when none is given. *)
Theorem C10_vocabulary_file (dict_from_corpus : list bow -> gmap Z string)
    (corpus : list bow) (id2word : option (gmap Z string))
    (progress_cnt : Z) :
  let d := (UciCorpus.vocabulary dict_from_corpus corpus id2word).1 in
  let n := (UciCorpus.vocabulary dict_from_corpus corpus id2word).2 in
  let vocab :=
    (UciCorpus.save_corpus dict_from_corpus corpus id2word progress_cnt).1 in
  map_Forall (fun _ word => UciReader.newline ∉ to_utf8 word) d ->
  match id2word with
  | None => d = dict_from_corpus corpus ∧ n = Z.of_nat (size d)
  | Some m =>
      d = m
      ∧ (m = ∅ -> n = 0)
      ∧ (m ≠ ∅ ->
         n = 1 + UciCorpus.max_key m
         ∧ is_Some (m !! UciCorpus.max_key m)
         ∧ forall k, is_Some (m !! k) -> k <= UciCorpus.max_key m)
  end
  ∧ UciReader.readlines vocab
    = map (fun featureid =>
             to_utf8 (default "---" (d !! featureid)) ++ [UciReader.newline])
          (seqZ 0 n)
  ∧ length (UciReader.readlines vocab) = Z.to_nat n.
Proof.
  intros d n vocab Hwords.
  assert (vocab = concat (map (fun l => l ++ [UciReader.newline])
                   (map (fun k => to_utf8 (default "---" (d !! k))) (seqZ 0 n))))
    as Hvocab.
  { subst vocab d n. unfold UciCorpus.save_corpus.
    destruct (UciCorpus.vocabulary _ _ _) as [d n]. cbn [fst snd].
    unfold UciCorpus.write_vocab. by rewrite map_map. }
  split; [| split].
  - subst d n. destruct id2word as [m |]; cbn [UciCorpus.vocabulary].
    + destruct (bool_decide (m = ∅)) eqn:Hm.
      * apply bool_decide_eq_true in Hm. by repeat split.
      * apply bool_decide_eq_false in Hm. repeat split; try done;
          by apply max_key_spec.
    + done.
  - rewrite Hvocab, readlines_concat; [by rewrite map_map |].
    apply Forall_map, Forall_forall. intros k _.
    destruct (d !! k) as [word |] eqn:Hk; [by apply (Hwords k) |].
    apply placeholder_no_newline.
  - rewrite Hvocab, readlines_concat.
    + by rewrite !length_map, length_seqZ.
    + apply Forall_map, Forall_forall. intros k _.
      destruct (d !! k) as [word |] eqn:Hk; [by apply (Hwords k) |].
      apply placeholder_no_newline.
Qed.

End saving.

(** * Opening a file of the UCI dialect *)

(** C8 (amended). The reader fails exactly when one of the header lines
    that the file does have is not a numeral; a header line that is missing
    altogether is no error, its count stays 0. *)
Theorem C8_reader_header (input : bytes) :
  let header_lines := take 3 (UciReader.readlines input) in
  let parse := fun l => UciReader.int (UciReader.strip l) in
  UciReader.init input
  = match mapM parse header_lines with
    | None => Raise UciReader.invalid_literal
    | Some counts => Return (mkHeader (default 0 (counts !! 0%nat))
                                      (default 0 (counts !! 1%nat))
                                      (default 0 (counts !! 2%nat)))
    end
  ∧ ((exists e, UciReader.init input = Raise e)
     <-> Exists (fun l => parse l = None) header_lines).
Proof.
  intros header_lines parse.
  assert (UciReader.init input
          = match mapM parse header_lines with
            | None => Raise UciReader.invalid_literal
            | Some counts => Return (mkHeader (default 0 (counts !! 0%nat))
                                              (default 0 (counts !! 1%nat))
                                              (default 0 (counts !! 2%nat)))
            end) as Hinit.
  { subst header_lines parse. unfold UciReader.init.
    destruct (UciReader.readlines input) as [| l0 [| l1 [| l2 ls]]]; simpl;
      repeat (destruct (UciReader.int _); simpl); reflexivity. }
  split; [exact Hinit |]. rewrite Hinit, <- mapM_None.
  destruct (mapM parse header_lines); split.
  - intros [e He]. discriminate.
  - discriminate.
  - done.
  - intros _. by eexists.
Qed.

(** * Iterating over a corpus *)

Section iteration.
Import MmReader.

Lemma entries_of_cons (i d : Z) (p : Z * Q) (es : list entry) :
  entries_of i ((d, p) :: es)
  = if decide (d = i) then p :: entries_of i es else entries_of i es.
Proof.
  unfold entries_of. destruct (decide (d = i)) as [Heq | Hne].
  - by rewrite filter_cons_True.
  - by rewrite filter_cons_False.
Qed.

Lemma entries_of_below (i : Z) (es : list entry) :
  Forall (fun d => i < d) (doc_ids es) -> entries_of i es = [].
Proof.
  induction es as [| [d p] es IH]; [done |]. intros Hes.
  apply Forall_cons in Hes as [Hd Hes]. simpl in Hd.
  rewrite entries_of_cons, decide_False by lia. by apply IH.
Qed.

Lemma entries_of_absent (i : Z) (es : list entry) :
  i ∉ doc_ids es -> entries_of i es = [].
Proof.
  induction es as [| [d p] es IH]; [done |]. intros Hes.
  apply not_elem_of_cons in Hes as [Hd Hes]. simpl in Hd.
  rewrite entries_of_cons, decide_False by done. by apply IH.
Qed.

(** The grouping loop on ascending document ids: the current document gets
    the rest of its entries, and every later id below [n] gets a document,
    empty when no entry line carries the id. *)
Lemma group_spec (n : Z) (es : list entry) :
  forall (cur : Z) (acc : bow),
    StronglySorted Z.le (cur :: doc_ids es) ->
    Forall (fun d => d < n) (cur :: doc_ids es) ->
    group n cur acc es
    = (cur, acc ++ entries_of cur es)
        :: map (fun i => (i, entries_of i es)) (seqZ (cur + 1) (n - cur - 1)).
Proof.
  induction es as [| [d p] es IH]; intros cur acc Hs Hb.
  { cbn [group]. rewrite app_nil_r. unfold empties.
    by replace (n - (cur + 1)) with (n - cur - 1) by lia. }
  apply StronglySorted_inv in Hs as [Hs Hcur].
  apply Forall_cons in Hcur as [Hcd Hcur]. cbn [fst] in Hcd.
  apply Forall_cons in Hb as [Hbc Hb].
  pose proof Hb as Hb'. apply Forall_cons in Hb' as [Hbd _]. cbn [fst] in Hbd.
  cbn [group]. destruct (d =? cur) eqn:Hd.
  - apply Z.eqb_eq in Hd. subst d.
    rewrite (IH cur (acc ++ [p]) Hs Hb).
    rewrite entries_of_cons, decide_True by done.
    rewrite <- app_assoc. f_equal. apply map_ext_in. intros i Hi.
    apply list_elem_of_In, elem_of_seqZ in Hi.
    by rewrite entries_of_cons, decide_False by lia.
  - apply Z.eqb_neq in Hd. assert (cur < d) as Hlt by lia.
    rewrite (IH d [p] Hs Hb).
    apply StronglySorted_inv in Hs as [_ Hes].
    rewrite (entries_of_below cur ((d, p) :: es)).
    2:{ constructor; [done |]. eapply Forall_impl; [exact Hes |].
        cbn [fst]. intros x Hx. lia. }
    rewrite app_nil_r. f_equal.
    replace (n - cur - 1) with ((d - cur - 1) + (1 + (n - d - 1))) by lia.
    rewrite seqZ_app, map_app by lia. f_equal.
    + unfold empties. replace (d - (cur + 1)) with (d - cur - 1) by lia.
      apply map_ext_in. intros i Hi.
      apply list_elem_of_In, elem_of_seqZ in Hi.
      rewrite entries_of_cons. rewrite decide_False; [| lia].
      rewrite entries_of_below; [done |].
      eapply Forall_impl; [exact Hes |]. cbn [fst]. intros x Hx. lia.
    + replace (cur + 1 + (d - cur - 1)) with d by lia.
      rewrite (seqZ_cons d) by lia. cbn [map].
      rewrite entries_of_cons, decide_True by done. f_equal.
      replace (Z.succ d) with (d + 1) by lia.
      replace (Z.pred (1 + (n - d - 1))) with (n - d - 1) by lia.
      apply map_ext_in. intros i Hi.
      apply list_elem_of_In, elem_of_seqZ in Hi.
      by rewrite entries_of_cons, decide_False by lia.
Qed.

(** When the first entry line belongs to document [f], the documents of
    the ids below [f] are empty and come first. *)
Lemma iter_from_first (r : CorpusHeader) (f : Z) (p : Z * Q)
    (es : list entry) :
  Sorted Z.le (doc_ids ((f, p) :: es)) ->
  Forall (fun d => 0 <= d < num_docs r) (doc_ids ((f, p) :: es)) ->
  iter r ((f, p) :: es)
  = map (fun i => (i, entries_of i ((f, p) :: es))) (seqZ 0 (num_docs r)).
Proof.
  intros Hs Hb. cbn [iter].
  apply Sorted_StronglySorted in Hs; [| intros x y z; lia].
  assert (Forall (fun d => d < num_docs r) (doc_ids ((f, p) :: es))) as Hb'.
  { eapply Forall_impl; [exact Hb |]. cbn beta. lia. }
  rewrite (group_spec _ _ _ _ Hs Hb').
  apply Forall_cons in Hb as [Hf _]. cbn [fst] in Hf.
  replace (num_docs r) with (f + (1 + (num_docs r - f - 1))) at 2 by lia.
  rewrite seqZ_app, map_app by lia. f_equal.
  - unfold empties. rewrite Z.sub_0_r. apply map_ext_in. intros i Hi.
    apply list_elem_of_In, elem_of_seqZ in Hi. f_equal. symmetry.
    apply entries_of_below. apply StronglySorted_inv in Hs as [_ Hes].
    constructor; [cbn [fst]; lia |].
    eapply Forall_impl; [exact Hes |]. cbn [fst]. intros x Hx. lia.
  - rewrite Z.add_0_l, (seqZ_cons f) by lia. cbn [map].
    rewrite entries_of_cons, decide_True by done. f_equal.
    replace (Z.succ f) with (f + 1) by lia.
    replace (Z.pred (1 + (num_docs r - f - 1))) with (num_docs r - f - 1)
      by lia.
    apply map_ext_in. intros i Hi.
    apply list_elem_of_In, elem_of_seqZ in Hi.
    by rewrite entries_of_cons, decide_False by lia.
Qed.

(** C1. On entry lines in ascending order of document id, all ids among 0,
    ..., [num_docs - 1], a full iteration yields exactly [num_docs]
    documents, one for each id from 0 up to [num_docs - 1] in this order:
    the entries of the id, and an empty document for an id without entry
    lines, whether it lies before the first observed id, between two
    observed ids or after the last one.  The count is that of the header
    whatever ids the entry lines carry.  The corpora drop the ids and keep
    the count. *)
Theorem C1_iter_fills_gaps (r : CorpusHeader) (es : list MmReader.entry) :
  0 <= num_docs r ->
  Sorted Z.le (doc_ids es) ->
  Forall (fun d => 0 <= d < num_docs r) (doc_ids es) ->
  iter r es = map (fun i => (i, entries_of i es)) (seqZ 0 (num_docs r))
  ∧ map fst (iter r es) = seqZ 0 (num_docs r)
  ∧ Z.of_nat (length (iter r es)) = num_docs r
  ∧ Z.of_nat (length (MmCorpus.iter r es)) = num_docs r
  ∧ Z.of_nat (length (UciCorpus.iter r es)) = num_docs r
  ∧ (forall i, 0 <= i < num_docs r -> i ∉ doc_ids es -> (i, []) ∈ iter r es).
Proof.
  intros Hn Hs Hb.
  assert (iter r es
          = map (fun i => (i, entries_of i es)) (seqZ 0 (num_docs r)))
    as Hiter.
  { destruct es as [| [f p] es]; [| by rewrite iter_from_first].
    cbn [iter]. unfold empties. by rewrite Z.sub_0_r. }
  assert (Z.of_nat (length (iter r es)) = num_docs r) as Hlen.
  { rewrite Hiter, length_map, length_seqZ. lia. }
  split; [exact Hiter |]. split.
  { rewrite Hiter, map_map. cbn [fst]. apply map_id. }
  split; [exact Hlen |].
  unfold MmCorpus.iter, UciCorpus.iter. rewrite !length_map.
  split; [done |]. split; [done |].
  intros i Hi Habs. rewrite Hiter. apply list_elem_of_In, in_map_iff.
  exists i. rewrite (entries_of_absent i es Habs). split; [done |].
  apply list_elem_of_In, elem_of_seqZ. lia.
Qed.

End iteration.

(** * The statements at concrete inputs *)

Section examples.
Import MmWriter.

Lemma word_no_newline (word : string) :
  forallb (fun c => negb (Ascii.eqb c UciReader.newline)) (to_utf8 word) = true ->
  UciReader.newline ∉ to_utf8 word.
Proof.
  intros Hall Hin. apply list_elem_of_In in Hin.
  rewrite forallb_forall in Hall. apply Hall in Hin.
  by rewrite Ascii.eqb_refl in Hin.
Defined.

Lemma vocabulary_mapping (dict_from_corpus : list bow -> gmap Z string)
    (corpus : list bow) (m : gmap Z string) :
  (UciCorpus.vocabulary dict_from_corpus corpus (Some m)).1 = m.
Proof. cbn. by destruct (bool_decide (m = ∅)). Defined.

Lemma example_header_fits : Forall fits (header_values (header_of example_corpus)).
Proof. vm_compute. repeat constructor. Defined.

Lemma C1_witness :
  MmReader.iter (mkHeader 5 2 3) example_entries
  = [(0, []); (1, [(0, 1 # 1); (1, 1 # 1)]); (2, []); (3, [(0, 2 # 1)]);
     (4, [])]
  ∧ Z.of_nat (length (MmCorpus.iter (mkHeader 5 2 3) example_entries)) = 5.
Proof.
  assert (Sorted Z.le (doc_ids example_entries)) as Hs
    by (repeat constructor; simpl; lia).
  assert (Forall (fun d => 0 <= d < 5) (doc_ids example_entries)) as Hb
    by (repeat constructor; simpl; lia).
  destruct (C1_iter_fills_gaps (mkHeader 5 2 3) example_entries
              ltac:(simpl; lia) Hs Hb) as (_ & _ & _ & H0 & _).
  split; [reflexivity | exact H0].
Defined.

Lemma C2_witness :
  (UciWriter.write_corpus example_corpus 1000 true).1
  = Return (Some [63; -1; 75]).
Proof.
  destruct (C2_offsets_sentinel example_corpus 1000 ltac:(lia)) as (H & _).
  rewrite H. reflexivity.
Defined.

Lemma C3_witness :
  exists w,
    UciWriter.write_corpus example_corpus 1000 true
    = (Return (Some [63; -1; 75]), w)
    ∧ UciReader.init (File.data (fout w)) = Return (mkHeader 3 3 3).
Proof.
  destruct (C3_header_integrity example_corpus 1000 true ltac:(lia)
              example_header_fits) as (w & Hrun & Hinit & _).
  exists w. split; [exact Hrun | exact Hinit].
Defined.

(** C5: with the reserved width of 20 as the stride, the second value would
    sit at offset 20; the byte there is the newline of the first line. *)
Lemma C5_counterexample :
  ¬ patched_at UciWriter.MAX_HEADER_LENGTH 7 8 9
  ∧ patched 7 8 9 !! (1 * UciWriter.MAX_HEADER_LENGTH)%nat
    = Some UciReader.newline
  ∧ patched 7 8 9 !! (1 * length UciWriter.FAKE_HEADER)%nat = Some "8"%char.
Proof.
  split; [| split; reflexivity].
  intros H. specialize (H 1%nat 8 eq_refl). vm_compute in H. discriminate.
Qed.

Lemma C5_witness :
  patched_at (length UciWriter.FAKE_HEADER) 7 8 9
  ∧ UciReader.readlines (patched 7 8 9)
    = [pad (to_utf8 "7"); pad (to_utf8 "8"); pad (to_utf8 "9")].
Proof.
  assert (Forall fits (header_values (mkHeader 7 8 9))) as Hfit
    by (vm_compute; repeat constructor).
  destruct (C5_header_layout 7 8 9 Hfit) as (_ & _ & _ & Hat & Hlines).
  split; [exact Hat | exact Hlines].
Defined.

Lemma C6_witness :
  UciWriter.write_corpus example_corpus_zero 1000 true
  = UciWriter.write_corpus example_corpus 1000 true.
Proof.
  assert (Forall fits (header_values (header_of example_corpus_zero))) as Hfit
    by (vm_compute; repeat constructor).
  destruct (C6_zero_weight_exclusion example_corpus_zero 1000 true
              ltac:(lia) Hfit) as (H & _).
  rewrite <- H. reflexivity.
Defined.

(** C7: three words in the mapping, one feature in the corpus; the header
    of the UCI file says one term. *)
Lemma C7_counterexample :
  ¬ uci_header_declares (fun _ => ∅) one_word_corpus example_id2word 1000.
Proof.
  intros H. specialize (H (mkHeader 1 1 1) eq_refl). vm_compute in H.
  discriminate.
Qed.

Lemma C7_witness :
  num_terms (MmCorpus.save_corpus one_word_corpus (Some example_id2word)) = 3
  ∧ exists h,
      UciReader.init
        (File.data (fout
           (UciCorpus.save_corpus (fun _ => ∅) one_word_corpus
              (Some example_id2word) 1000).2.2))
      = Return h
      ∧ num_terms h = 1.
Proof.
  assert (Forall fits (header_values (header_of one_word_corpus))) as Hfit
    by (vm_compute; repeat constructor).
  destruct (C7_declared_num_terms (fun _ => ∅) one_word_corpus
              example_id2word 1000 ltac:(lia) Hfit) as (Hmm & _ & h & Hh & Ht).
  split; [exact Hmm |]. exists h. split; [exact Hh | exact Ht].
Defined.

(** C8: an empty file and a file cut after its first line are opened
    without an error; the missing counts are 0. *)
Lemma C8_counterexample :
  UciReader.init [] = Return (mkHeader 0 0 0)
  ∧ UciReader.init (pad (to_utf8 "12")) = Return (mkHeader 12 0 0).
Proof. split; reflexivity. Qed.

Lemma C10_witness :
  UciReader.readlines
    (UciCorpus.save_corpus (fun _ => ∅) one_word_corpus
       (Some {[ 0 := "human"; 2 := "computer" ]}) 1000).1
  = [to_utf8 "human" ++ [UciReader.newline];
     to_utf8 "---" ++ [UciReader.newline];
     to_utf8 "computer" ++ [UciReader.newline]].
Proof.
  assert (map_Forall (fun _ word => UciReader.newline ∉ to_utf8 word)
            ({[ 0 := "human"; 2 := "computer" ]} : gmap Z string)) as Hwords.
  { apply map_Forall_insert_2; [apply word_no_newline; by vm_compute |].
    apply map_Forall_singleton. apply word_no_newline. by vm_compute. }
  pose proof (C10_vocabulary_file (fun _ => ∅) one_word_corpus
                (Some {[ 0 := "human"; 2 := "computer" ]}) 1000) as H.
  cbv zeta in H. rewrite vocabulary_mapping in H.
  destruct (H Hwords) as (_ & Hlines & _).
  rewrite Hlines. reflexivity.
Defined.

End examples.

(** * Further properties of the header code *)

Section header_extras.
Import MmWriter.

Lemma skip_headers_loop_drop (lines : list bytes) :
  forall lineno, 0 <= lineno <= 2 ->
    UciReader.skip_headers_loop lineno lines
    = drop (Z.to_nat (3 - lineno)) lines.
Proof.
  induction lines as [| l lines IH]; intros lineno Hl.
  { by rewrite drop_nil. }
  cbn [UciReader.skip_headers_loop].
  destruct (lineno =? 2) eqn:H2.
  - apply Z.eqb_eq in H2. subst lineno. reflexivity.
  - apply Z.eqb_neq in H2. rewrite IH by lia.
    replace (Z.to_nat (3 - lineno)) with (S (Z.to_nat (3 - (lineno + 1))))
      by lia.
    reflexivity.
Qed.

Lemma header_bytes_length (h : CorpusHeader) :
  Forall fits (header_values h) ->
  length (concat (map pad (header_values h)))
  = (3 * length UciWriter.FAKE_HEADER)%nat.
Proof.
  unfold header_values. cbn [map concat]. intros Hfit.
  apply Forall_cons in Hfit as [H0 Hfit].
  apply Forall_cons in Hfit as [H1 Hfit].
  apply Forall_cons in Hfit as [H2 _].
  rewrite !length_app, !pad_length by done. cbn [length]. lia.
Qed.

(** X1. [skip_headers] takes the first three lines off its input and leaves
    the others as they are; an input of fewer lines is used up without an
    error.  On a file that [write_corpus] wrote it leaves exactly the entry
    lines, those that start at the byte where the first document was
    recorded. *)
Theorem X1_skip_headers_lands_on_body (corpus : list bow)
    (progress_cnt : Z) (index : bool) :
  progress_cnt ≠ 0 ->
  Forall fits (header_values (header_of corpus)) ->
  (forall lines, UciReader.skip_headers lines = drop 3 lines)
  ∧ exists w,
      UciWriter.write_corpus corpus progress_cnt index
      = (Return (returned index corpus), w)
      ∧ UciReader.skip_headers (UciReader.readlines (File.data (fout w)))
        = body_lines 0 corpus
      ∧ UciReader.skip_headers (UciReader.readlines (File.data (fout w)))
        = UciReader.readlines (drop (Z.to_nat body_start) (File.data (fout w))).
Proof.
  intros Hpc Hfit.
  assert (forall lines, UciReader.skip_headers lines = drop 3 lines) as Hskip.
  { intros lines. unfold UciReader.skip_headers.
    by rewrite skip_headers_loop_drop by lia. }
  split; [exact Hskip |].
  destruct (write_corpus_fits corpus progress_cnt index Hpc Hfit)
    as (w & Hrun & Hdata & _).
  exists w. split; [exact Hrun |]. rewrite Hskip, Hdata, readlines_written.
  split; [done |].
  unfold body_start. rewrite Nat2Z.id, <- (header_bytes_length _ Hfit).
  rewrite drop_app_length.
  rewrite <- (app_nil_r (concat (body_lines 0 corpus))).
  rewrite readlines_lines by apply body_lines_are_lines.
  by rewrite app_nil_r.
Qed.

Lemma write_within (v : bytes) (offset : nat) (f : File.t) :
  (offset + length v <= length (File.data f))%nat ->
  File.data (File.write v (File.seek offset f))
  = take offset (File.data f) ++ v ++ drop (offset + length v) (File.data f).
Proof.
  intros Hin. unfold File.write, File.seek. cbn [File.data File.pos].
  by replace (offset - length (File.data f))%nat with 0%nat by lia.
Qed.

(** The loop of [update_headers] writes inside the stretch of header lines
    it was given, whether it ends with an error or not. *)
Lemma update_headers_loop_keeps (values : list bytes) :
  forall (offset : nat) (w : MmWriter.t),
    (offset + length UciWriter.FAKE_HEADER * length values
     <= length (File.data (fout w)))%nat ->
    let r := UciWriter.update_headers_loop values offset w in
    length (File.data (fout r.2)) = length (File.data (fout w))
    ∧ (forall m,
         (offset + length UciWriter.FAKE_HEADER * length values <= m)%nat ->
         drop m (File.data (fout r.2)) = drop m (File.data (fout w)))
    ∧ take offset (File.data (fout r.2)) = take offset (File.data (fout w))
    ∧ File.closed (fout r.2) = File.closed (fout w).
Proof.
  induction values as [| v values IH]; intros offset w Hlen; [done |].
  cbn zeta. rewrite update_headers_loop_cons.
  destruct (length UciWriter.FAKE_HEADER <? length v)%nat eqn:Hlt; [done |].
  apply Nat.ltb_ge in Hlt. cbn [length] in Hlen.
  set (L := length UciWriter.FAKE_HEADER) in *.
  set (w1' := {| fout := File.write v (File.seek offset (fout w));
                 last_docno := last_docno w;
                 headers_written := headers_written w |}).
  change ((on_fout (File.seek offset) >> on_fout (File.write v) >>
           UciWriter.update_headers_loop values (offset + L)) w)
    with (UciWriter.update_headers_loop values (offset + L) w1').
  assert (File.data (fout w1')
          = take offset (File.data (fout w)) ++ v
              ++ drop (offset + length v) (File.data (fout w))) as Hd.
  { subst w1'. cbn [fout]. apply write_within. lia. }
  assert (length (File.data (fout w1')) = length (File.data (fout w))) as Hl.
  { rewrite Hd, !length_app, length_take, length_drop. lia. }
  destruct (IH (offset + L)%nat w1') as (Hlen' & Hdrop & Htake & Hcl).
  { rewrite Hl. lia. }
  cbn zeta in Hlen', Hdrop, Htake, Hcl.
  split; [by rewrite Hlen' |]. split; [| split; [| by rewrite Hcl]].
  - intros m Hm. cbn [length] in Hm. rewrite Hdrop by lia. rewrite Hd.
    rewrite app_assoc, drop_app_ge; rewrite length_app, length_take; [| lia].
    rewrite drop_drop. f_equal. lia.
  - apply (f_equal (take offset)) in Htake.
    rewrite !take_take in Htake.
    replace (offset `min` (offset + L))%nat with offset in Htake by lia.
    rewrite Htake, Hd, take_app_le by (rewrite length_take; lia).
    rewrite take_take. f_equal. lia.
Qed.

(** X2. Patching the header never moves the body: on a file that holds the
    three header lines, [update_headers] keeps the length of the file and
    every byte from the end of the third header line on, whether it returns
    or raises; the offsets recorded before the patch stay valid. *)
Theorem X2_update_headers_keeps_body (nd nt nz : Z) (w : MmWriter.t) :
  (3 * length UciWriter.FAKE_HEADER <= length (File.data (fout w)))%nat ->
  let r := UciWriter.update_headers nd nt nz w in
  length (File.data (fout r.2)) = length (File.data (fout w))
  ∧ drop (3 * length UciWriter.FAKE_HEADER) (File.data (fout r.2))
    = drop (3 * length UciWriter.FAKE_HEADER) (File.data (fout w))
  ∧ File.closed (fout r.2) = File.closed (fout w).
Proof.
  intros Hlen.
  destruct (update_headers_loop_keeps
              (header_values (mkHeader nd nt nz)) 0 w)
    as (Hl & Hdrop & _ & Hcl).
  { cbn [header_values map length]. lia. }
  cbn zeta. split; [exact Hl |]. split; [| exact Hcl].
  apply Hdrop. cbn [header_values map length]. lia.
Qed.

(** X3. [update_headers] raises its [ValueError] exactly when one of the
    three values is longer than a blank header line, 21 bytes with the
    newline; the values are checked in turn, so a first value that is too
    long leaves the file untouched. *)
Theorem X3_update_headers_outcome (nd nt nz : Z) (w : MmWriter.t) :
  (UciWriter.update_headers nd nt nz w).1
  = (if decide (Exists too_long (header_values (mkHeader nd nt nz)))
     then Raise (ValueError "Invalid header: value too large!")
     else Return tt)
  ∧ (too_long (to_utf8 (str nd)) -> (UciWriter.update_headers nd nt nz w).2 = w)
  ∧ (¬ too_long (to_utf8 (str nd)) -> too_long (to_utf8 (str nt)) ->
     take (length (to_utf8 (str nd)))
       (File.data (fout (UciWriter.update_headers nd nt nz w).2))
     = to_utf8 (str nd)).
Proof.
  split; [apply (update_headers_loop_outcome
                   (header_values (mkHeader nd nt nz)) 0 w) |].
  change (UciWriter.update_headers nd nt nz)
    with (UciWriter.update_headers_loop
            [to_utf8 (str nd); to_utf8 (str nt); to_utf8 (str nz)] 0).
  rewrite update_headers_loop_cons. unfold too_long. split.
  - intros Hd. apply Nat.ltb_lt in Hd. by rewrite Hd.
  - intros Hd Ht. apply Nat.ltb_lt in Ht.
    assert ((length UciWriter.FAKE_HEADER <? length (to_utf8 (str nd)))%nat
            = false) as -> by (apply Nat.ltb_ge; lia).
    unfold bind at 1 2. cbn [on_fout]. rewrite update_headers_loop_cons, Ht.
    cbn [raise snd fout]. unfold File.write, File.seek.
    cbn [File.data File.pos]. rewrite take_0, Nat.sub_0_l. cbn [replicate app].
    by rewrite take_app_length.
Qed.

End header_extras.

(** * Further properties of the UCI writer *)

Section writer_extras.
Import MmWriter.

(** Counts that fit the reserved width are far below the range of the
    floats. *)
Lemma fits_below_float_range (h : CorpusHeader) :
  Forall fits (header_values h) -> density_overflows h = false.
Proof.
  destruct h as [nd nt nz]. unfold header_values. cbn [map]. intros Hfit.
  apply Forall_cons in Hfit as [Hd Hfit].
  apply Forall_cons in Hfit as [Ht Hfit].
  apply Forall_cons in Hfit as [Hz _].
  assert (forall n, fits (to_utf8 (str n)) -> Z.abs n < 10 ^ 20) as Hsmall.
  { intros n Hn. destruct (decide (Z.abs n < 10 ^ 20)) as [| Hbig]; [done |].
    pose proof (str_length_ge n 20) as Hlen.
    change (Z.of_nat 20) with 20 in Hlen.
    unfold fits, UciWriter.MAX_HEADER_LENGTH in Hn. lia. }
  cbn [num_docs num_terms num_nnz] in Hd, Ht, Hz.
  apply Hsmall in Hd, Ht, Hz.
  assert (10 ^ 20 * 10 ^ 20 <= 2 ^ 1024 - 2 ^ 970) as Hrange
    by (apply Z.leb_le; vm_compute; reflexivity).
  assert (0 < 10 ^ 20) as Hpos by (apply Z.pow_pos_nonneg; lia).
  unfold density_overflows, UciWriter.float_overflows.
  cbn [num_docs num_terms num_nnz].
  set (T := 2 ^ 1024 - 2 ^ 970) in *. set (B := 10 ^ 20) in *.
  assert (Z.abs (nd * nt) < B * B) as Hprod by (rewrite Z.abs_mul; nia).
  assert (Z.abs nz < B * B) as Hnnz by nia.
  apply andb_false_iff. right. apply orb_false_iff.
  split; apply Z.leb_gt; lia.
Qed.

(** Up to the density report: as [write_corpus_before_patch], for the call
    with the report; without an overflow the report does nothing. *)
Lemma write_corpus_logged_before_patch (corpus : list bow) (pc : Z)
    (index : bool) :
  pc ≠ 0 ->
  exists w1,
    File.data (fout w1)
    = UciWriter.FAKE_HEADER ++ UciWriter.FAKE_HEADER ++ UciWriter.FAKE_HEADER
        ++ concat (body_lines 0 corpus)
    ∧ File.closed (fout w1) = false
    ∧ UciWriter.write_corpus_logged corpus pc index
      = (if density_overflows (header_of corpus)
         then (Raise OverflowError, w1)
         else UciWriter.write_corpus corpus pc index).
Proof.
  intros Hpc.
  unfold UciWriter.write_corpus_logged, UciWriter.write_corpus_logged_body,
    UciWriter.write_corpus, UciWriter.write_corpus_body.
  set (w0 := (UciWriter.write_headers init).2).
  assert (forall A (k : unit -> M A),
            (UciWriter.write_headers >> k tt) init = k tt w0) as Hhead
    by reflexivity.
  rewrite (Hhead _ (fun _ => bind _ _)), (Hhead _ (fun _ => bind _ _)).
  destruct (write_corpus_loop_run pc index corpus Hpc 0
              UciWriter.initial w0)
    as (s & w1 & Hrun & _ & Hdata & Hcl & Hterms & Hnnz & Hdoc & _);
    [reflexivity | done | done |].
  exists w1. split; [by rewrite Hdata | ]. split; [by rewrite Hcl |].
  assert (forall A (k : UciWriter.locals -> M A),
            (let* s0 := UciWriter.write_corpus_loop pc index corpus 0
                          UciWriter.initial in k s0) w0 = k s w1) as Hloop.
  { intros A k. unfold bind. by rewrite Hrun. }
  rewrite !Hloop. clear Hloop Hhead.
  unfold bind at 1. unfold UciWriter.density_report, density_overflows.
  assert (UciWriter.docno s + 1 = Z.of_nat (length corpus)) as Hd.
  { rewrite Hdoc. destruct corpus; simpl; lia. }
  assert (UciWriter.num_terms s = 1 + max_id (map fst (written_pairs corpus)))
    as Ht.
  { rewrite Hterms. cbn [UciWriter.initial UciWriter.num_terms].
    pose proof (max_id_lower (map fst (written_pairs corpus))). lia. }
  assert (UciWriter.num_nnz s = Z.of_nat (length (written_pairs corpus)))
    as Hz.
  { rewrite Hnnz. simpl. lia. }
  cbn [header_of num_docs num_terms num_nnz]. rewrite Hd, Ht, Hz.
  destruct (_ * _ =? 0); [reflexivity |]. cbn [negb andb].
  by destruct (_ || _).
Qed.

(** X4. With the density report in its place, [write_corpus] ends in one of
    four ways, and in no other: with a [ZeroDivisionError] when
    [progress_cnt] is 0 and there is a document; else with the
    [OverflowError] of the density report when a count is beyond the range
    of the floats; else with the [ValueError] of the header when a count is
    longer than a blank header line; and with its result otherwise.  It
    never raises an [IndexError].  After the [ZeroDivisionError] the file
    holds the three blank header lines only, after the [OverflowError] the
    blank header lines and the entry lines; either way it is not closed and
    is refused by the reader.  Without an overflow the report changes
    nothing, and counts that fit the reserved width never overflow. *)
Theorem X4_write_corpus_outcome (corpus : list bow) (progress_cnt : Z)
    (index : bool) :
  let r := UciWriter.write_corpus_logged corpus progress_cnt index in
  let h := header_of corpus in
  r.1 = (if decide (progress_cnt = 0 ∧ corpus ≠ [])
         then Raise ZeroDivisionError
         else if density_overflows h
              then Raise OverflowError
              else if decide (Exists too_long (header_values h))
                   then Raise (ValueError "Invalid header: value too large!")
                   else Return (returned index corpus))
  ∧ (progress_cnt = 0 -> corpus ≠ [] ->
     File.data (fout r.2)
     = UciWriter.FAKE_HEADER ++ UciWriter.FAKE_HEADER ++ UciWriter.FAKE_HEADER
     ∧ File.closed (fout r.2) = false
     ∧ UciReader.init (File.data (fout r.2)) = Raise UciReader.invalid_literal)
  ∧ (progress_cnt ≠ 0 -> density_overflows h = true ->
     File.data (fout r.2)
     = UciWriter.FAKE_HEADER ++ UciWriter.FAKE_HEADER ++ UciWriter.FAKE_HEADER
         ++ concat (body_lines 0 corpus)
     ∧ File.closed (fout r.2) = false
     ∧ UciReader.init (File.data (fout r.2)) = Raise UciReader.invalid_literal)
  ∧ (density_overflows h = false ->
     r = UciWriter.write_corpus corpus progress_cnt index)
  ∧ (Forall fits (header_values h) -> density_overflows h = false).
Proof.
  cbn zeta.
  assert (progress_cnt ≠ 0 ∨ progress_cnt = 0 ∧ corpus = []
          ∨ progress_cnt = 0 ∧ corpus ≠ []) as [Hpc | [[-> ->] | [-> Hne]]].
  { destruct (decide (progress_cnt = 0)) as [-> | ?]; [| by left].
    destruct corpus; [right; by left | right; by right]. }
  - destruct (write_corpus_logged_before_patch corpus progress_cnt index Hpc)
      as (w1 & Hdata & Hcl & ->).
    rewrite decide_False by (intros [? _]; done).
    split; [| split; [done |]; split; [| split]].
    + destruct (density_overflows (header_of corpus)); [done |].
      by apply write_corpus_outcome.
    + intros _ ->. cbn [snd]. split; [exact Hdata |]. split; [exact Hcl |].
      rewrite Hdata. reflexivity.
    + by intros ->.
    + apply fits_below_float_range.
  - split; [by destruct index |]. split; [done |]. split; [done |].
    split; [by destruct index | intros _; reflexivity].
  - rewrite decide_True by done. destruct corpus as [| b rest]; [done |].
    split; [done |]. split; [done |]. split; [done |].
    split; [| apply fits_below_float_range].
    intros _. reflexivity.
Qed.

Lemma doc_starts_bounds (corpus : list bow) :
  forall i pos,
    Forall (fun p => pos <= p
                     <= pos + Z.of_nat (length (concat (body_lines i corpus))))
           (doc_starts i pos corpus).
Proof.
  induction corpus as [| b rest IH]; intros i pos; [constructor |].
  cbn [doc_starts body_lines]. rewrite concat_app, length_app.
  constructor; [lia |].
  eapply Forall_impl; [apply IH |]. cbn beta. intros p Hp. lia.
Qed.

(** From the position recorded for document [k] on, the file holds the
    entry lines of the documents [k], [k + 1], ... *)
Lemma doc_starts_drop (corpus : list bow) :
  forall i pos (pre : bytes) (k : nat) p,
    Z.of_nat (length pre) = pos ->
    doc_starts i pos corpus !! k = Some p ->
    drop (Z.to_nat p) (pre ++ concat (body_lines i corpus))
    = concat (body_lines (i + Z.of_nat k) (drop k corpus)).
Proof.
  induction corpus as [| b rest IH]; intros i pos pre k p Hpre Hk; [done |].
  destruct k as [| k].
  - cbn in Hk. injection Hk as <-. rewrite <- Hpre, Nat2Z.id, Z.add_0_r.
    by rewrite drop_app_length.
  - cbn [doc_starts lookup list_lookup] in Hk.
    cbn [body_lines drop]. rewrite concat_app, app_assoc.
    rewrite (IH (i + 1) (pos + Z.of_nat (length (concat (doc_lines i b))))
               (pre ++ concat (doc_lines i b)) k p); [| | exact Hk].
    + f_equal. f_equal. lia.
    + rewrite length_app. lia.
Qed.

Lemma doc_starts_next (corpus : list bow) :
  forall i pos (k : nat) p b,
    doc_starts i pos corpus !! k = Some p ->
    corpus !! k = Some b ->
    doc_starts i pos corpus !! S k
    = (fun _ => p + Z.of_nat (length (concat (doc_lines (i + Z.of_nat k) b))))
        <$> corpus !! S k.
Proof.
  induction corpus as [| b0 rest IH]; intros i pos k p b Hp Hb; [done |].
  destruct k as [| k].
  - cbn in Hp, Hb. injection Hp as <-. injection Hb as <-.
    rewrite Z.add_0_r. by destruct rest.
  - cbn [doc_starts] in Hp |- *. rewrite lookup_cons in Hp.
    rewrite lookup_cons in Hb.
    rewrite (lookup_cons _ _ (S (S k))), (lookup_cons b0 rest (S (S k))).
    rewrite (IH _ _ _ _ _ Hp Hb).
    by replace (i + 1 + Z.of_nat k) with (i + Z.of_nat (S k)) by lia.
Qed.

Lemma doc_lines_empty (i : Z) (b : bow) :
  length (concat (doc_lines i b)) = 0%nat <-> UciWriter.coerce b = [].
Proof.
  unfold doc_lines.
  pose proof (Permutation_length (sorted_by_id_perm (UciWriter.coerce b))) as Hl.
  destruct (sorted_by_id (UciWriter.coerce b)) as [| p ps].
  - split; [| done]. intros _. by destruct (UciWriter.coerce b).
  - split.
    + cbn [map concat]. rewrite length_app.
      destruct (entry_line_is_line i p) as (l' & -> & _).
      rewrite length_app. cbn [length]. lia.
    + intros Hnil. rewrite Hnil in Hl. discriminate.
Qed.

Lemma mark_real (ps : list Z) (k : nat) (x : Z) :
  mark ps !! k = Some x -> x ≠ -1 -> ps !! k = Some x.
Proof.
  intros Hx Hne. destruct (ps !! k) as [p |] eqn:Hp.
  - rewrite (mark_lookup _ _ _ Hp) in Hx. injection Hx as <-.
    destruct (ps !! S k) as [q |]; [| done]. by destruct (q =? p).
  - apply lookup_ge_None in Hp. apply lookup_lt_Some in Hx.
    rewrite mark_length in Hx. lia.
Qed.

(** X5. Every real offset of the returned list is the byte at which the
    lines of its document start: it lies past the header, and from there on
    the file holds the entry lines of this document and of those after it,
    and nothing else. *)
Theorem X5_offsets_point_at_documents (corpus : list bow)
    (progress_cnt : Z) :
  progress_cnt ≠ 0 ->
  Forall fits (header_values (header_of corpus)) ->
  exists w offs,
    UciWriter.write_corpus corpus progress_cnt true = (Return (Some offs), w)
    ∧ forall (k : nat) p,
        offs !! k = Some p -> p ≠ -1 ->
        body_start <= p <= Z.of_nat (length (File.data (fout w)))
        ∧ drop (Z.to_nat p) (File.data (fout w))
          = concat (body_lines (Z.of_nat k) (drop k corpus))
        ∧ UciReader.readlines (drop (Z.to_nat p) (File.data (fout w)))
          = body_lines (Z.of_nat k) (drop k corpus).
Proof.
  intros Hpc Hfit.
  destruct (write_corpus_fits corpus progress_cnt true Hpc Hfit)
    as (w & Hrun & Hdata & _).
  exists w, (mark (doc_starts 0 body_start corpus)). split; [exact Hrun |].
  intros k p Hk Hne. apply mark_real in Hk; [| exact Hne].
  pose proof (header_bytes_length _ Hfit) as Hh.
  assert (drop (Z.to_nat p) (File.data (fout w))
          = concat (body_lines (Z.of_nat k) (drop k corpus))) as Hdrop.
  { rewrite Hdata.
    rewrite (doc_starts_drop corpus 0 body_start _ k p); [done | | exact Hk].
    rewrite Hh. reflexivity. }
  split; [| split; [exact Hdrop |]].
  - pose proof (doc_starts_bounds corpus 0 body_start) as Hb.
    rewrite Forall_forall in Hb.
    specialize (Hb p (list_elem_of_lookup_2 _ _ _ Hk)).
    rewrite Hdata, length_app, Hh. unfold body_start in *. lia.
  - rewrite Hdrop.
    rewrite <- (app_nil_r (concat _)), readlines_lines, app_nil_r; [done |].
    apply body_lines_are_lines.
Qed.

(** X6. A slot of the returned list holds the sentinel [-1] exactly when
    its document has no entry line and is not the last one; the slot of the
    last document always holds a real position. *)
Theorem X6_sentinel_marks_empty_document (corpus : list bow)
    (progress_cnt : Z) :
  progress_cnt ≠ 0 ->
  Forall fits (header_values (header_of corpus)) ->
  exists w offs,
    UciWriter.write_corpus corpus progress_cnt true = (Return (Some offs), w)
    ∧ length offs = length corpus
    ∧ forall (k : nat) b,
        corpus !! k = Some b ->
        (offs !! k = Some (-1)
         <-> (S k < length corpus)%nat ∧ UciWriter.coerce b = []).
Proof.
  intros Hpc Hfit.
  destruct (write_corpus_fits corpus progress_cnt true Hpc Hfit)
    as (w & Hrun & _).
  set (ps := doc_starts 0 body_start corpus).
  exists w, (mark ps). split; [exact Hrun |].
  split; [unfold ps; by rewrite mark_length, doc_starts_length |].
  intros k b Hb.
  destruct (ps !! k) as [p |] eqn:Hp.
  2:{ apply lookup_ge_None in Hp. apply lookup_lt_Some in Hb.
      unfold ps in Hp. rewrite doc_starts_length in Hp. lia. }
  assert (body_start <= p) as Hge.
  { pose proof (doc_starts_bounds corpus 0 body_start) as Hall.
    rewrite Forall_forall in Hall.
    apply (Hall p (list_elem_of_lookup_2 _ _ _ Hp)). }
  assert (0 <= body_start) as H0 by (unfold body_start; lia).
  rewrite (mark_lookup _ _ _ Hp).
  unfold ps. rewrite (doc_starts_next corpus 0 body_start k p b Hp Hb).
  destruct (corpus !! S k) as [b' |] eqn:Hnext; cbn [fmap option_fmap option_map].
  - apply lookup_lt_Some in Hnext.
    rewrite <- (doc_lines_empty (0 + Z.of_nat k) b).
    destruct (_ =? p) eqn:Heq.
    + apply Z.eqb_eq in Heq. split; [intros _; split; [done | lia] | done].
    + apply Z.eqb_neq in Heq. split; [intros [= ?]; lia | intros [_ ?]; lia].
  - apply lookup_ge_None in Hnext. split; [intros [= ?]; lia | intros [? _]; lia].
Qed.

Lemma int_of_number_zero (y : Q) :
  int_of_number y = 0 <-> (- (1) < y)%Q ∧ (y < 1)%Q.
Proof.
  destruct y as [a d]. unfold int_of_number, Qlt. cbn [Qnum Qden Qopp].
  rewrite Z.quot_small_iff by done. lia.
Qed.

(** X7. The integer coercion drops exactly the pairs whose weight lies
    strictly between -1 and 1, not only those of weight zero; the pairs it
    keeps stay in their order, with their feature ids and the weight
    truncated toward zero, which is never 0. *)
Theorem X7_coerce_drops_small_weights (b : bow) :
  UciWriter.coerce b
  = map (fun p => (fst p, int_of_number (snd p))) (nonzero_pairs b)
  ∧ sublist (nonzero_pairs b) b
  ∧ (forall p, p ∈ nonzero_pairs b
               <-> p ∈ b ∧ ¬ ((- (1) < snd p)%Q ∧ (snd p < 1)%Q))
  ∧ Forall (fun p => snd p ≠ 0) (UciWriter.coerce b).
Proof.
  split; [apply coerce_kept |]. split; [apply sublist_filter |].
  split; [| apply coerce_nonzero].
  intros p. unfold nonzero_pairs. rewrite list_elem_of_filter.
  rewrite int_of_number_zero. tauto.
Qed.

(** With or without the offsets the loop does the same to the writer and
    to the running totals. *)
Lemma write_corpus_loop_index (pc : Z) (corpus : list bow) :
  forall i s s' w,
    (UciWriter.offsets s = [] -> UciWriter.poslast s < 0) ->
    same_counts s s' ->
    match UciWriter.write_corpus_loop pc true corpus i s w,
          UciWriter.write_corpus_loop pc false corpus i s' w with
    | (Return t, w1), (Return t', w1') => w1 = w1' ∧ same_counts t t'
    | (Raise e, w1), (Raise e', w1') => e = e' ∧ w1 = w1'
    | _, _ => False
    end.
Proof.
  induction corpus as [| b rest IH]; intros i s s' w Hinv Hsame; [done |].
  rewrite !write_corpus_loop_cons. unfold bind, UciWriter.progress.
  destruct (pc =? 0); [done |]. cbn [ret raise].
  rewrite (record_offset_run true s w Hinv).
  cbn [UciWriter.record_offset ret]. rewrite !write_vector_coerce.
  destruct Hsame as (Hnt & Hnnz & Hdoc).
  apply IH.
  - cbn. intros Hnil. symmetry in Hnil. by apply app_cons_not_nil in Hnil.
  - unfold same_counts. cbn. by rewrite Hnt, Hnnz.
Qed.

(** X8. Asking for the index changes the result only: without it
    [write_corpus] leaves the same file and writer behind, raises the same
    error if any, and returns [None] where the indexing call returns the
    offsets. *)
Theorem X8_index_changes_result_only (corpus : list bow) (progress_cnt : Z) :
  let r := UciWriter.write_corpus corpus progress_cnt true in
  let r' := UciWriter.write_corpus corpus progress_cnt false in
  r'.2 = r.2
  ∧ match r.1 with
    | Return offs => r'.1 = Return None
    | Raise e => r'.1 = Raise e
    end.
Proof.
  cbn zeta. unfold UciWriter.write_corpus, UciWriter.write_corpus_body.
  unfold bind. rewrite write_headers_init.
  match goal with
  | |- context [UciWriter.write_corpus_loop _ true _ _ _ ?w0] =>
      pose proof (write_corpus_loop_index progress_cnt corpus 0
                    UciWriter.initial UciWriter.initial w0
                    ltac:(cbn; lia) ltac:(by repeat split)) as Hloop
  end.
  destruct (UciWriter.write_corpus_loop progress_cnt true corpus 0 _ _)
    as [[t | e] w1];
    destruct (UciWriter.write_corpus_loop progress_cnt false corpus 0 _ _)
    as [[t' | e'] w1']; try done.
  - destruct Hloop as [<- (-> & -> & ->)].
    by destruct (UciWriter.update_headers _ _ _ w1) as [[[] | e] w2].
  - by destruct Hloop as [<- <-].
Qed.

(** X12. The file is closed exactly when the call returns: an error,
    whichever it is, leaves the output file open. *)
Theorem X12_closed_iff_returned (corpus : list bow) (progress_cnt : Z)
    (index : bool) :
  let r := UciWriter.write_corpus corpus progress_cnt index in
  File.closed (fout r.2) = true <-> exists v, r.1 = Return v.
Proof.
  cbn zeta. destruct (decide (progress_cnt = 0 ∧ corpus ≠ [])) as [[-> Hne] | Hno].
  { destruct corpus as [| b rest]; [done |]. split; [done | by intros [v Hv]]. }
  assert (exists pc, pc ≠ 0
            ∧ UciWriter.write_corpus corpus progress_cnt index
              = UciWriter.write_corpus corpus pc index) as (pc & Hpc & ->).
  { destruct (decide (progress_cnt = 0)) as [-> | Hpc]; [| by eexists].
    destruct corpus as [| b rest]; [| by destruct Hno]. by exists 1. }
  destruct (write_corpus_before_patch corpus pc index Hpc)
    as (w1 & Hdata & Hcl & ->).
  rewrite update_headers_values. unfold bind.
  destruct (update_headers_loop_keeps
              (header_values (header_of corpus)) 0 w1) as (_ & _ & _ & Hkeep).
  { rewrite Hdata. cbn [app]. rewrite length_app.
    unfold header_values. cbn [map concat length]. rewrite !length_app.
    cbn [length]. lia. }
  cbn zeta in Hkeep.
  destruct (UciWriter.update_headers_loop _ 0 w1) as [[[] | e] w2].
  - split; [by eexists | done].
  - cbn [snd fst] in *. rewrite Hkeep, Hcl. split; [done | by intros [v Hv]].
Qed.

(** X13. The header is a round trip for any three integers of the range
    of the reader's attributes, [long long] in the compiled base class,
    negative ones included: each of them takes at most the 20 reserved
    bytes, so patched into three blank header lines in front of any body
    they are the counts the reader takes from the file, and the body is
    left as it was. *)
Theorem X13_header_round_trip (nd nt nz : Z) (body : bytes)
    (w : MmWriter.t) :
  File.data (fout w)
  = UciWriter.FAKE_HEADER ++ UciWriter.FAKE_HEADER ++ UciWriter.FAKE_HEADER
      ++ body ->
  long_long nd -> long_long nt -> long_long nz ->
  let r := UciWriter.update_headers nd nt nz w in
  Forall fits (header_values (mkHeader nd nt nz))
  ∧ r.1 = Return tt
  ∧ UciReader.init (File.data (fout r.2)) = Return (mkHeader nd nt nz)
  ∧ drop (3 * length UciWriter.FAKE_HEADER) (File.data (fout r.2)) = body.
Proof.
  intros Hdata Hnd Hnt Hnz. cbn zeta.
  assert (forall n, long_long n -> fits (to_utf8 (str n))) as Hll.
  { intros n [Hlo Hhi]. apply (str_length_le n 19).
    change (Z.of_nat 19) with 19. lia. }
  assert (Forall fits (header_values (mkHeader nd nt nz))) as Hfit.
  { unfold header_values. cbn [map num_docs num_terms num_nnz].
    repeat (apply Forall_cons_2; [by apply Hll |]). apply Forall_nil_2. }
  split; [exact Hfit |].
  destruct (update_headers_loop_fits _ Hfit [] body w) as (w' & Hrun & Hd & _).
  { rewrite Hdata. unfold header_values. cbn [map concat app].
    by rewrite <- !app_assoc. }
  change (UciWriter.update_headers nd nt nz)
    with (UciWriter.update_headers_loop (header_values (mkHeader nd nt nz)) 0).
  cbn [length] in Hrun. rewrite Hrun. cbn [fst snd]. split; [done |].
  rewrite Hd. cbn [app]. split; [apply init_written |].
  rewrite <- (header_bytes_length _ Hfit). apply drop_app_length.
Qed.

End writer_extras.

(** * Loading a corpus of the UCI dialect *)

Section corpus_extras.
Import MmWriter.


Lemma dict_snoc {A} (pairs : list (Z * A)) (p : Z * A) :
  UciCorpus.dict (pairs ++ [p]) = <[fst p := snd p]> (UciCorpus.dict pairs).
Proof. unfold UciCorpus.dict. by rewrite foldl_app. Qed.

Lemma enumerate_snoc {A} (words : list A) (word : A) :
  UciCorpus.enumerate (words ++ [word])
  = UciCorpus.enumerate words ++ [(Z.of_nat (length words), word)].
Proof.
  unfold UciCorpus.enumerate. rewrite imap_app. cbn [imap].
  by rewrite Nat.add_0_r.
Qed.

(** [dict(enumerate(words))] maps the index of a word to the word, and
    nothing else to anything. *)
Lemma dict_enumerate_lookup {A} (words : list A) (k : Z) :
  UciCorpus.dict (UciCorpus.enumerate words) !! k
  = if decide (0 <= k) then words !! Z.to_nat k else None.
Proof.
  induction words as [| word words IH] using rev_ind.
  { cbn. rewrite lookup_empty. by destruct (decide (0 <= k)). }
  rewrite enumerate_snoc, dict_snoc. cbn [fst snd].
  destruct (decide (Z.of_nat (length words) = k)) as [<- | Hne].
  - rewrite lookup_insert_eq, decide_True by lia.
    rewrite Nat2Z.id. by rewrite lookup_app_r, Nat.sub_diag.
  - rewrite lookup_insert_ne, IH by done.
    destruct (decide (0 <= k)) as [Hk | Hk]; [| done].
    destruct (decide (Z.to_nat k < length words)%nat) as [Hlt | Hge].
    + by rewrite lookup_app_l.
    + rewrite !lookup_ge_None_2; [done | rewrite length_app; cbn; lia | lia].
Qed.

Lemma dict_enumerate_size {A} (words : list A) :
  size (UciCorpus.dict (UciCorpus.enumerate words)) = length words.
Proof.
  induction words as [| word words IH] using rev_ind; [done |].
  rewrite enumerate_snoc, dict_snoc. cbn [fst snd].
  rewrite map_size_insert_None, IH, length_app; [cbn; lia |].
  rewrite dict_enumerate_lookup, decide_True by lia.
  apply lookup_ge_None_2. lia.
Qed.

(** X9. A corpus is opened exactly when the header of its file is: the
    vocabulary file cannot make [UciCorpus.__init__] fail.  Its lines,
    stripped, become the words of ids 0, 1, ... in file order, blank lines
    included as empty words; no other id has a word. *)
Theorem X9_init_vocabulary (input vocab : bytes) :
  let words := map UciReader.strip (UciReader.readlines vocab) in
  match UciCorpus.init input vocab with
  | Raise e => UciReader.init input = Raise e
  | Return c =>
      UciReader.init input = Return (UciCorpus.header c)
      ∧ UciCorpus.transposed c = true
      ∧ size (UciCorpus.id2word c) = length words
      ∧ forall k, UciCorpus.id2word c !! k
                  = if decide (0 <= k) then words !! Z.to_nat k else None
  end.
Proof.
  cbn zeta. unfold UciCorpus.init.
  destruct (UciReader.init input) as [h | e]; [| done].
  cbn [UciCorpus.header UciCorpus.transposed UciCorpus.id2word].
  split; [done |]. split; [done |].
  split; [apply dict_enumerate_size | apply dict_enumerate_lookup].
Qed.





Lemma foldl_concat {A B} (f : B -> A -> B) (b : B) (ls : list (list A)) :
  foldl (fun acc l => foldl f acc l) b ls = foldl f b (concat ls).
Proof.
  revert b. induction ls as [| l ls IH]; intros b; [done |].
  cbn [foldl concat]. by rewrite foldl_app, IH.
Qed.

Section dictionary.
Variable fresh : Dictionary.t.
Variable revdict : gmap Z bytes -> gmap bytes Z.

(** Counting pairs adds to [dfs] the number of pairs of each feature id and
    leaves the other attributes but [num_pos] alone. *)
Lemma count_pairs_dfs (pairs : bow) (word : Z) :
  forall d,
    let d' := foldl UciCorpus.count_pair d pairs in
    let c := Z.of_nat (length (filter (fun p => fst p = word) pairs)) in
    Dictionary.dfs d' !! word
    = match Dictionary.dfs d !! word with
      | Some v => Some (v + c)
      | None => if decide (c = 0) then None else Some c
      end
    ∧ Dictionary.id2token d' = Dictionary.id2token d
    ∧ Dictionary.token2id d' = Dictionary.token2id d
    ∧ Dictionary.num_docs d' = Dictionary.num_docs d
    ∧ Dictionary.num_nnz d' = Dictionary.num_nnz d.
Proof.
  induction pairs as [| p pairs IH]; intros d.
  { cbn. destruct (Dictionary.dfs d !! word); repeat split. by rewrite Z.add_0_r. }
  cbn zeta. cbn [foldl].
  destruct (IH (UciCorpus.count_pair d p)) as (Hdfs & Hrest).
  cbn zeta in Hdfs, Hrest. split; [| exact Hrest].
  rewrite Hdfs. cbn [UciCorpus.count_pair Dictionary.dfs].
  destruct (decide (fst p = word)) as [Heq | Hne].
  - rewrite filter_cons_True, Heq, lookup_insert_eq by done.
    cbn [length]. destruct (Dictionary.dfs d !! word) as [v |]; cbn.
    + f_equal. lia.
    + rewrite decide_False by lia. f_equal. lia.
  - rewrite filter_cons_False, lookup_insert_ne by done. done.
Qed.

(** X11. In the dictionary made from a corpus, [dfs] has a key for each
    feature id that occurs in the documents iterated over, mapped to the
    number of pairs that carry it, and no key for an id that occurs
    nowhere; the document and non-zero counts are those of the header, not
    recounted, and [id2token] is the vocabulary of the corpus. *)
Theorem X11_create_dictionary_dfs (self : UciCorpus.t)
    (es : list MmReader.entry) (word : Z) :
  let d := UciCorpus.create_dictionary fresh revdict self es in
  let c := occurrences word (UciCorpus.iter (UciCorpus.header self) es) in
  0 <= c
  ∧ Dictionary.dfs d !! word = (if decide (c = 0) then None else Some c)
  ∧ Dictionary.id2token d = UciCorpus.id2word self
  ∧ Dictionary.token2id d = revdict (UciCorpus.id2word self)
  ∧ Dictionary.num_docs d = num_docs (UciCorpus.header self)
  ∧ Dictionary.num_nnz d = num_nnz (UciCorpus.header self).
Proof.
  cbn zeta. unfold UciCorpus.create_dictionary, occurrences.
  rewrite foldl_concat. split; [lia |].
  match goal with
  | |- context [foldl UciCorpus.count_pair ?d0 ?pairs] =>
      destruct (count_pairs_dfs pairs word d0) as (Hdfs & H1 & H2 & H3 & H4)
  end.
  cbn zeta in Hdfs, H1, H2, H3, H4.
  rewrite Hdfs, H1, H2, H3, H4. cbn [Dictionary.dfs]. rewrite lookup_empty.
  done.
Qed.

End dictionary.

End corpus_extras.

(** * The further properties at concrete inputs *)

Section extra_examples.
Import MmWriter.

Lemma example_run :
  (UciWriter.write_corpus example_corpus 1000 true).1
  = Return (Some [63; -1; 75]).
Proof. reflexivity. Defined.

Lemma X1_witness :
  exists w,
    UciWriter.write_corpus example_corpus 1000 true
    = (Return (returned true example_corpus), w)
    ∧ UciReader.skip_headers (UciReader.readlines (File.data (fout w)))
      = [entry_line 0 (0, 1); entry_line 0 (2, 3); entry_line 2 (1, 2)].
Proof.
  destruct (X1_skip_headers_lands_on_body example_corpus 1000 true
              ltac:(lia) example_header_fits) as (_ & w & Hrun & Hskip & _).
  exists w. split; [exact Hrun |]. rewrite Hskip. reflexivity.
Defined.

Lemma X2_witness :
  length (File.data (fout
    (UciWriter.update_headers 7 8 9 (UciWriter.write_headers init).2).2))
  = 63%nat.
Proof.
  destruct (X2_update_headers_keeps_body 7 8 9
              (UciWriter.write_headers init).2 ltac:(vm_compute; lia))
    as (Hlen & _).
  rewrite Hlen. reflexivity.
Defined.

Lemma X3_witness :
  (UciWriter.update_headers 1000000000000000000000 0 0 init).2 = init.
Proof.
  destruct (X3_update_headers_outcome 1000000000000000000000 0 0 init)
    as (_ & Hsame & _).
  apply Hsame. unfold too_long. vm_compute. lia.
Defined.

Lemma X4_witness :
  (UciWriter.write_corpus_logged huge_id_corpus 1000 true).1
  = Raise OverflowError
  ∧ File.closed
      (fout (UciWriter.write_corpus_logged huge_id_corpus 1000 true).2)
    = false
  ∧ File.data (fout (UciWriter.write_corpus_logged example_corpus 0 true).2)
    = UciWriter.FAKE_HEADER ++ UciWriter.FAKE_HEADER ++ UciWriter.FAKE_HEADER.
Proof.
  assert (density_overflows (header_of huge_id_corpus) = true) as Hov
    by (vm_compute; reflexivity).
  destruct (X4_write_corpus_outcome huge_id_corpus 1000 true)
    as (Hout & _ & Hover & _).
  rewrite Hout, Hov. split; [reflexivity |].
  destruct (Hover ltac:(lia) Hov) as (_ & Hcl & _). split; [exact Hcl |].
  destruct (X4_write_corpus_outcome example_corpus 0 true)
    as (_ & Hzero & _).
  destruct (Hzero eq_refl ltac:(discriminate)) as (Hdata & _).
  exact Hdata.
Defined.

Lemma X5_witness :
  exists w,
    UciWriter.write_corpus example_corpus 1000 true
    = (Return (Some [63; -1; 75]), w)
    ∧ UciReader.readlines (drop 75 (File.data (fout w)))
      = [entry_line 2 (1, 2)].
Proof.
  destruct (X5_offsets_point_at_documents example_corpus 1000
              ltac:(lia) example_header_fits) as (w & offs & Hrun & Hoffs).
  pose proof example_run as Hc. rewrite Hrun in Hc. cbn [fst] in Hc.
  injection Hc as ->. exists w. split; [exact Hrun |].
  destruct (Hoffs 2%nat 75 eq_refl ltac:(lia)) as (_ & _ & Hlines).
  exact Hlines.
Defined.

Lemma X6_witness :
  exists w offs,
    UciWriter.write_corpus example_corpus 1000 true = (Return (Some offs), w)
    ∧ offs !! 1%nat = Some (-1).
Proof.
  destruct (X6_sentinel_marks_empty_document example_corpus 1000
              ltac:(lia) example_header_fits) as (w & offs & Hrun & _ & Hiff).
  exists w, offs. split; [exact Hrun |].
  apply (Hiff 1%nat [] eq_refl). split; [cbn; lia | reflexivity].
Defined.


Lemma X13_witness :
  UciReader.init
    (File.data (fout
       (UciWriter.update_headers 3 (-3) 0 (UciWriter.write_headers init).2).2))
  = Return (mkHeader 3 (-3) 0).
Proof.
  destruct (X13_header_round_trip 3 (-3) 0 []
              (UciWriter.write_headers init).2 eq_refl
              ltac:(unfold long_long; lia) ltac:(unfold long_long; lia)
              ltac:(unfold long_long; lia)) as (_ & _ & Hinit & _).
  exact Hinit.
Defined.

End extra_examples.
